(** * How_to_stream_completions.ipynb: a shallow embedding of the notebook

    The notebook configures an OpenAI client from the process environment
    (cell 1), issues one blocking chat completion (cells 3 and 5), prints a
    streamed one (cell 7) and times a streamed one while collecting its
    chunks (cells 10 and 11).

    Python state is threaded explicitly: a [World] holds [os.environ], the
    wall clock, standard output, the remote service and the kernel's global
    names.  A cell is a computation in a state-and-exception monad; when a
    cell raises, the state reached so far is kept, as in a notebook kernel. *)

From Stdlib Require Import ZArith List String Sorted.
From stdpp Require Import base option list gmap strings.

Local Open Scope Z_scope.
Local Open Scope string_scope.
Local Open Scope list_scope.

(** ** Data exchanged with the service *)

Inductive Role := user | assistant | system.

(** A message of a request: [{'role': ..., 'content': ...}]. *)
Record Message := { role : Role; content : string }.

(** The keyword arguments of [client.chat.completions.create]. *)
Record Request := {
  model : string;
  messages : list Message;
  temperature : Z;
  stream : bool
}.

(** [response.choices[0].message] of a blocking completion. *)
Record ChatCompletionMessage := {
  message_role : Role;
  message_content : option string
}.

Record Choice := { message : ChatCompletionMessage }.

Record CompletionUsage := {
  prompt_tokens : nat;
  completion_tokens : nat;
  total_tokens : nat
}.

Record ChatCompletion := {
  choices : list Choice;
  usage : option CompletionUsage
}.

(** [chunk.choices[0].delta]: a role token, a content token, or nothing. *)
Record ChoiceDelta := {
  delta_role : option Role;
  delta_content : option string
}.

Record ChunkChoice := { delta : ChoiceDelta }.

(** One event of a streamed completion.  It has no [usage] field. *)
Record ChatCompletionChunk := { chunk_choices : list ChunkChoice }.

(** ** Exceptions *)

(** [ValueError], [TypeError], [NameError], [IndexError] and [AttributeError] are
    Python's; [OpenAIError] is what the [OpenAI()] constructor raises;
    [TransportError] stands for whatever the client raises while a request
    is submitted or a chunk is fetched.  The notebook catches none of them. *)
Inductive Exn :=
| ValueError (msg : string)
| TypeError (msg : string)
| NameError (name : string)
| IndexError
| AttributeError
| OpenAIError (msg : string)
| TransportError (detail : string).

(** ** The streamed response

    The object returned by [create(..., stream=True)] is iterated with
    [for chunk in response].  Each pull of the iterator yields the next
    chunk, raises, or signals exhaustion.  A stream that yields chunks for
    ever is not represented: on it the loops of cells 7 and 10 do not end. *)
Inductive Stream :=
| Closed
| Failed (e : Exn)
| Next (chunk : ChatCompletionChunk) (rest : Stream).

(** The stream that yields [chunks] and then ends as [ending]. *)
Fixpoint yielding (chunks : list ChatCompletionChunk) (ending : Stream) : Stream :=
  match chunks with
  | [] => ending
  | chunk :: chunks' => Next chunk (yielding chunks' ending)
  end.

(** ** The client and the remote service *)

(** What [OpenAI()] keeps of the environment. *)
Record Client := { api_key : string; base_url : string }.

(** The service behind the client.  The [nat] is the number of requests
    issued before this one, so that a service may answer the same request
    differently each time.  A refusal comes with the exception the client
    makes of it and with whether the client sends the request again for
    it (a timeout, a connection error, a status 408, 409, 429 or 5xx) or
    not (any other status). *)
Record Service := {
  complete : nat -> Client -> Request -> (Exn * bool) + ChatCompletion;
  open_stream : nat -> Client -> Request -> (Exn * bool) + Stream
}.

(** ** Standard output, one constructor per [print] of the notebook

    A line keeps the values that are formatted into it, not the text: the
    delay itself rather than its rendering by [:.2f], the delta itself
    rather than its [repr]. *)

Inductive Line :=
| FullResponseReceivedAfter (seconds : Z)
| FullResponseReceived (response : ChatCompletion)
| ExtractedReply (reply : ChatCompletionMessage)
| ExtractedContent (reply_content : option string)
| PrintedChunk (chunk : ChatCompletionChunk)
| MessageReceived (chunk_time : Z) (chunk_message : ChoiceDelta)
| FullConversationReceived (full_reply_content : string)
| JsonDump (chunk : ChatCompletionChunk).

(** ** The kernel's global names

    [None] is a name that is not bound yet.  [response] is bound to a
    completion by cell 3 and to a stream object by cells 7 and 10. *)
Inductive Response :=
| Completed (r : ChatCompletion)
| Streamed.

Record Globals := {
  GPT_MODEL : option string;
  client : option Client;
  start_time : option Z;
  response_time : option Z;
  response : option Response;
  reply_content : option (option string);
  collected_chunks : option (list ChatCompletionChunk);
  collected_messages : option (list ChoiceDelta);
  chunk_time : option Z;
  full_reply_content : option string
}.

Definition fresh_kernel : Globals :=
  {| GPT_MODEL := None; client := None; start_time := None;
     response_time := None; response := None; reply_content := None;
     collected_chunks := None; collected_messages := None;
     chunk_time := None; full_reply_content := None |}.

(** ** The world *)

(** [clock] lists the successive readings of [time.time()], in ticks of
    the clock, and [reads] counts the readings taken.  [issued],
    [delivered] and [raised] are the service's own record of the requests
    it received, the chunks it handed out and the failures it signalled.
    [http_client] is what building the HTTP client inside [OpenAI()]
    raises, if anything, in a given environment (proxy entries,
    certificate files).

    A world is a kernel in which the import lines 39 to 42 have run: the
    names [time], [OpenAI], [dotenv] and [os] are bound in every world and
    are not tracked. *)
Record World := {
  environ : gmap string string;
  http_client : gmap string string -> option Exn;
  clock : nat -> Z;
  reads : nat;
  stdout : list Line;
  service : Service;
  issued : list (Client * Request);
  delivered : list ChatCompletionChunk;
  raised : list Exn;
  globals : Globals
}.

Definition with_environ (f : gmap string string -> gmap string string) (w : World) : World :=
  {| environ := f (environ w); http_client := http_client w;
     clock := clock w; reads := reads w;
     stdout := stdout w; service := service w; issued := issued w;
     delivered := delivered w; raised := raised w; globals := globals w |}.

Definition with_reads (n : nat) (w : World) : World :=
  {| environ := environ w; http_client := http_client w;
     clock := clock w; reads := n;
     stdout := stdout w; service := service w; issued := issued w;
     delivered := delivered w; raised := raised w; globals := globals w |}.

Definition with_stdout (out : list Line) (w : World) : World :=
  {| environ := environ w; http_client := http_client w;
     clock := clock w; reads := reads w;
     stdout := out; service := service w; issued := issued w;
     delivered := delivered w; raised := raised w; globals := globals w |}.

Definition with_issued (l : list (Client * Request)) (w : World) : World :=
  {| environ := environ w; http_client := http_client w;
     clock := clock w; reads := reads w;
     stdout := stdout w; service := service w; issued := l;
     delivered := delivered w; raised := raised w; globals := globals w |}.

Definition with_delivered (l : list ChatCompletionChunk) (w : World) : World :=
  {| environ := environ w; http_client := http_client w;
     clock := clock w; reads := reads w;
     stdout := stdout w; service := service w; issued := issued w;
     delivered := l; raised := raised w; globals := globals w |}.

Definition with_raised (l : list Exn) (w : World) : World :=
  {| environ := environ w; http_client := http_client w;
     clock := clock w; reads := reads w;
     stdout := stdout w; service := service w; issued := issued w;
     delivered := delivered w; raised := l; globals := globals w |}.

Definition with_globals (f : Globals -> Globals) (w : World) : World :=
  {| environ := environ w; http_client := http_client w;
     clock := clock w; reads := reads w;
     stdout := stdout w; service := service w; issued := issued w;
     delivered := delivered w; raised := raised w;
     globals := f (globals w) |}.

(** Assignments to global names. *)
Definition bind_GPT_MODEL (v : string) (g : Globals) : Globals :=
  {| GPT_MODEL := Some v; client := client g; start_time := start_time g;
     response_time := response_time g; response := response g;
     reply_content := reply_content g;
     collected_chunks := collected_chunks g;
     collected_messages := collected_messages g;
     chunk_time := chunk_time g; full_reply_content := full_reply_content g |}.

Definition bind_client (v : Client) (g : Globals) : Globals :=
  {| GPT_MODEL := GPT_MODEL g; client := Some v; start_time := start_time g;
     response_time := response_time g; response := response g;
     reply_content := reply_content g;
     collected_chunks := collected_chunks g;
     collected_messages := collected_messages g;
     chunk_time := chunk_time g; full_reply_content := full_reply_content g |}.

Definition bind_start_time (v : Z) (g : Globals) : Globals :=
  {| GPT_MODEL := GPT_MODEL g; client := client g; start_time := Some v;
     response_time := response_time g; response := response g;
     reply_content := reply_content g;
     collected_chunks := collected_chunks g;
     collected_messages := collected_messages g;
     chunk_time := chunk_time g; full_reply_content := full_reply_content g |}.

Definition bind_response_time (v : Z) (g : Globals) : Globals :=
  {| GPT_MODEL := GPT_MODEL g; client := client g; start_time := start_time g;
     response_time := Some v; response := response g;
     reply_content := reply_content g;
     collected_chunks := collected_chunks g;
     collected_messages := collected_messages g;
     chunk_time := chunk_time g; full_reply_content := full_reply_content g |}.

Definition bind_response (v : Response) (g : Globals) : Globals :=
  {| GPT_MODEL := GPT_MODEL g; client := client g; start_time := start_time g;
     response_time := response_time g; response := Some v;
     reply_content := reply_content g;
     collected_chunks := collected_chunks g;
     collected_messages := collected_messages g;
     chunk_time := chunk_time g; full_reply_content := full_reply_content g |}.

Definition bind_reply_content (v : option string) (g : Globals) : Globals :=
  {| GPT_MODEL := GPT_MODEL g; client := client g; start_time := start_time g;
     response_time := response_time g; response := response g;
     reply_content := Some v;
     collected_chunks := collected_chunks g;
     collected_messages := collected_messages g;
     chunk_time := chunk_time g; full_reply_content := full_reply_content g |}.

Definition bind_collected_chunks (v : list ChatCompletionChunk) (g : Globals) : Globals :=
  {| GPT_MODEL := GPT_MODEL g; client := client g; start_time := start_time g;
     response_time := response_time g; response := response g;
     reply_content := reply_content g;
     collected_chunks := Some v;
     collected_messages := collected_messages g;
     chunk_time := chunk_time g; full_reply_content := full_reply_content g |}.

Definition bind_collected_messages (v : list ChoiceDelta) (g : Globals) : Globals :=
  {| GPT_MODEL := GPT_MODEL g; client := client g; start_time := start_time g;
     response_time := response_time g; response := response g;
     reply_content := reply_content g;
     collected_chunks := collected_chunks g;
     collected_messages := Some v;
     chunk_time := chunk_time g; full_reply_content := full_reply_content g |}.

Definition bind_chunk_time (v : Z) (g : Globals) : Globals :=
  {| GPT_MODEL := GPT_MODEL g; client := client g; start_time := start_time g;
     response_time := response_time g; response := response g;
     reply_content := reply_content g;
     collected_chunks := collected_chunks g;
     collected_messages := collected_messages g;
     chunk_time := Some v; full_reply_content := full_reply_content g |}.

Definition bind_full_reply_content (v : string) (g : Globals) : Globals :=
  {| GPT_MODEL := GPT_MODEL g; client := client g; start_time := start_time g;
     response_time := response_time g; response := response g;
     reply_content := reply_content g;
     collected_chunks := collected_chunks g;
     collected_messages := collected_messages g;
     chunk_time := chunk_time g; full_reply_content := Some v |}.

(** ** The monad of cells *)

Inductive Result (A : Type) :=
| Ok (a : A)
| Raise (e : Exn).
Arguments Ok {A} a.
Arguments Raise {A} e.

Definition M (A : Type) : Type := World -> Result A * World.

#[global] Instance M_ret : MRet M := fun A a w => (Ok a, w).

#[global] Instance M_bind : MBind M := fun A B k c w =>
  match c w with
  | (Ok a, w') => k a w'
  | (Raise e, w') => (Raise e, w')
  end.

#[global] Instance M_throw : MThrow Exn M := fun A e w => (Raise e, w).

Definition get {A} (f : World -> A) : M A := fun w => (Ok (f w), w).
Definition modify (f : World -> World) : M unit := fun w => (Ok tt, f w).
Definition assign (f : Globals -> Globals) : M unit := modify (with_globals f).

(** Reading a global name: [NameError] when it is not bound. *)
Definition name {A} (id : string) (f : Globals -> option A) : M A := fun w =>
  match f (globals w) with
  | Some v => (Ok v, w)
  | None => (Raise (NameError id), w)
  end.

(** [print(...)]. *)
Definition print (l : Line) : M unit :=
  modify (fun w => with_stdout (stdout w ++ [l]) w).

(** [time.time()]. *)
Definition time_time : M Z := fun w =>
  (Ok (clock w (reads w)), with_reads (S (reads w)) w).

(** [os.getenv(key)]. *)
Definition getenv (key : string) : M (option string) :=
  get (fun w => environ w !! key).

(** [os.environ[key] = value]. *)
Definition setenv (key value : string) : M unit :=
  modify (with_environ (insert key value)).

(** ** The client library *)

(** [OpenAI()]: the key is taken from [OPENAI_API_KEY], the endpoint from
    [OPENAI_BASE_URL]; then the HTTP client is built, which may raise on
    other entries of the environment.  No request is sent. *)
Definition OpenAI : M Client :=
  key ← getenv "OPENAI_API_KEY";
  url ← getenv "OPENAI_BASE_URL";
  match key with
  | None => mthrow (OpenAIError "The api_key client option must be set")
  | Some k =>
      failure ← get (fun w => http_client w (environ w));
      match failure with
      | Some e => mthrow e
      | None =>
          mret {| api_key := k;
                  base_url := default "https://api.openai.com/v1" url |}
      end
  end.

(** The retries of a client built without [max_retries]. *)
Definition max_retries : nat := 2.

(** One call of [create]: the request is sent; when the service refuses
    it and the refusal is one the client retries, the request is sent
    again, at most [retries] more times; the call returns the first answer
    and otherwise raises the exception of the last refusal. *)
Fixpoint submit {A} (retries : nat)
    (ask : Service -> nat -> (Exn * bool) + A)
    (entry : Client * Request) (w : World) : Result A * World :=
  let w' := with_issued (issued w ++ [entry]) w in
  match ask (service w) (length (issued w)) with
  | inr x => (Ok x, w')
  | inl (e, again) =>
      let w'' := with_raised (raised w ++ [e]) w' in
      match retries with
      | O => (Raise e, w'')
      | S k => if again then submit k ask entry w'' else (Raise e, w'')
      end
  end.

(** [client.chat.completions.create(model=..., messages=..., temperature=...)]
    without [stream]: a completion. *)
Definition create (c : Client) (m : string) (msgs : list Message) (t : Z) : M ChatCompletion :=
  let r := {| model := m; messages := msgs; temperature := t; stream := false |} in
  submit max_retries (fun svc n => complete svc n c r) (c, r).

(** The same call with [stream=True]: a stream of chunks. *)
Definition create_stream (c : Client) (m : string) (msgs : list Message) (t : Z) : M Stream :=
  let r := {| model := m; messages := msgs; temperature := t; stream := true |} in
  submit max_retries (fun svc n => open_stream svc n c r) (c, r).

(** [for chunk in response: body].  Every chunk pulled, and the failure of
    a pull, is entered in the service's record. *)
Fixpoint for_chunk_in (s : Stream) (body : ChatCompletionChunk -> M unit) : M unit :=
  match s with
  | Closed => mret tt
  | Failed e =>
      modify (fun w => with_raised (raised w ++ [e]) w) ;;
      mthrow e
  | Next chunk rest =>
      modify (fun w => with_delivered (delivered w ++ [chunk]) w) ;;
      body chunk ;;
      for_chunk_in rest body
  end.

(** ** Cell 1: client configuration *)

Definition GITHUB_TOKEN : string := "GITHUB_TOKEN".
Definition OPENAI_API_KEY : string := "OPENAI_API_KEY".
Definition OPENAI_BASE_URL : string := "OPENAI_BASE_URL".
Definition endpoint : string := "https://models.github.ai/inference".

(** Python's truth value of [os.getenv(...)]: [None] and [''] are false. *)
Definition truthy (v : option string) : bool :=
  match v with
  | None => false
  | Some "" => false
  | Some _ => true
  end.

(** Lines 46 to 54 of the notebook: the credential check, the two
    assignments to [os.environ], [GPT_MODEL] and the client. *)
Definition configure : M unit :=
  token ← getenv GITHUB_TOKEN;
  (if truthy token then mret tt
   else mthrow (ValueError "GITHUB_TOKEN is not set")) ;;
  token ← getenv GITHUB_TOKEN;
  match token with
  | None => mthrow (TypeError "str expected, not NoneType")
  | Some v => setenv OPENAI_API_KEY v
  end ;;
  setenv OPENAI_BASE_URL endpoint ;;
  assign (bind_GPT_MODEL "openai/gpt-4o-mini") ;;
  c ← OpenAI;
  assign (bind_client c).

(** ** Cells 3 and 5: a blocking completion *)

Definition count_to_100 : list Message :=
  [ {| role := user;
       content := "Count to 100, with a comma between each number and no newlines. E.g., 1, 2, 3, ..." |} ].

Definition cell_3 : M unit :=
  t0 ← time_time;
  assign (bind_start_time t0) ;;
  c ← name "client" client;
  m ← name "GPT_MODEL" GPT_MODEL;
  r ← create c m count_to_100 0;
  assign (bind_response (Completed r)) ;;
  t1 ← time_time;
  t0 ← name "start_time" start_time;
  assign (bind_response_time (t1 - t0)) ;;
  rt ← name "response_time" response_time;
  print (FullResponseReceivedAfter rt) ;;
  print (FullResponseReceived r).

(** [response.choices[0].message] on whatever [response] is bound to. *)
Definition first_message : M ChatCompletionMessage :=
  r ← name "response" response;
  match r with
  | Streamed => mthrow AttributeError
  | Completed r =>
      match choices r with
      | [] => mthrow IndexError
      | c :: _ => mret (message c)
      end
  end.

Definition cell_5 : M unit :=
  reply ← first_message;
  print (ExtractedReply reply) ;;
  reply ← first_message;
  assign (bind_reply_content (message_content reply)) ;;
  print (ExtractedContent (message_content reply)).

(** ** Cell 7: printing a streamed completion *)

Definition one_plus_one : list Message :=
  [ {| role := user; content := "What's 1+1? Answer in one word." |} ].

Definition cell_7 : M unit :=
  c ← name "client" client;
  m ← name "GPT_MODEL" GPT_MODEL;
  s ← create_stream c m one_plus_one 0;
  assign (bind_response Streamed) ;;
  for_chunk_in s (fun chunk => print (PrintedChunk chunk)).

(** ** Cell 10: the stream consumer *)

(** The body of the loop, lines 202 to 206. *)
Definition collect (chunk : ChatCompletionChunk) : M unit :=
  now ← time_time;
  t0 ← name "start_time" start_time;
  assign (bind_chunk_time (now - t0)) ;;
  chunks ← name "collected_chunks" collected_chunks;
  assign (bind_collected_chunks (chunks ++ [chunk])) ;;
  match chunk_choices chunk with
  | [] => mthrow IndexError
  | c :: _ =>
      let chunk_message := delta c in
      msgs ← name "collected_messages" collected_messages;
      assign (bind_collected_messages (msgs ++ [chunk_message])) ;;
      t ← name "chunk_time" chunk_time;
      print (MessageReceived t chunk_message)
  end.

(** [m.content or '']. *)
Definition content_or_empty (m : ChoiceDelta) : string :=
  if truthy (delta_content m) then default "" (delta_content m) else "".

(** [''.join([m.content or '' for m in collected_messages])]. *)
Definition join_contents (msgs : list ChoiceDelta) : string :=
  String.concat "" (map content_or_empty msgs).

(** Cell 10 with the message list of its request as a parameter; the
    model and the client are the globals bound by cell 1, the temperature
    is 0 and [stream] is set. *)
Definition consume (msgs : list Message) : M unit :=
  t0 ← time_time;
  assign (bind_start_time t0) ;;
  c ← name "client" client;
  m ← name "GPT_MODEL" GPT_MODEL;
  s ← create_stream c m msgs 0;
  assign (bind_response Streamed) ;;
  assign (bind_collected_chunks []) ;;
  assign (bind_collected_messages []) ;;
  for_chunk_in s collect ;;
  t ← name "chunk_time" chunk_time;
  print (FullResponseReceivedAfter t) ;;
  collected ← name "collected_messages" collected_messages;
  assign (bind_full_reply_content (join_contents collected)) ;;
  text ← name "full_reply_content" full_reply_content;
  print (FullConversationReceived text).

Definition cell_10 : M unit := consume count_to_100.

(** ** Cell 11: the last chunk *)

Definition cell_11 : M unit :=
  chunks ← name "collected_chunks" collected_chunks;
  match last chunks with
  | None => mthrow IndexError
  | Some chunk => print (JsonDump chunk)
  end.

(** ** The notebook, run from top to bottom *)

Section Notebook.

(** [dotenv.load_dotenv()]: the effect of the package on [os.environ],
    whatever the [.env] file holds. *)
Variable load_dotenv : gmap string string -> gmap string string.

Definition cell_1 : M unit :=
  modify (with_environ load_dotenv) ;;
  configure.

Definition notebook : M unit :=
  cell_1 ;; cell_3 ;; cell_5 ;; cell_7 ;; cell_10 ;; cell_11.

End Notebook.

(** * What the loop of cell 10 does, as functions of the stream *)

(** The delta the body extracts from a chunk, when there is one. *)
Definition first_delta (chunk : ChatCompletionChunk) : option ChoiceDelta :=
  match chunk_choices chunk with
  | [] => None
  | c :: _ => Some (delta c)
  end.

(** How the loop ends: the stream closes, the stream fails, or a chunk
    without choices stops the body. *)
Fixpoint loop_result (s : Stream) : Result unit :=
  match s with
  | Closed => Ok tt
  | Failed e => Raise e
  | Next chunk rest =>
      match first_delta chunk with
      | None => Raise IndexError
      | Some _ => loop_result rest
      end
  end.

(** The chunks the loop pulls before it ends. *)
Fixpoint pulled (s : Stream) : list ChatCompletionChunk :=
  match s with
  | Closed | Failed _ => []
  | Next chunk rest =>
      match first_delta chunk with
      | None => [chunk]
      | Some _ => chunk :: pulled rest
      end
  end.

(** The deltas of the chunks for which the body ran to its end. *)
Fixpoint accepted (s : Stream) : list ChoiceDelta :=
  match s with
  | Closed | Failed _ => []
  | Next chunk rest =>
      match first_delta chunk with
      | None => []
      | Some d => d :: accepted rest
      end
  end.

(** The failure the stream signals, when the loop gets that far. *)
Fixpoint signalled (s : Stream) : list Exn :=
  match s with
  | Closed => []
  | Failed e => [e]
  | Next chunk rest =>
      match first_delta chunk with
      | None => []
      | Some _ => signalled rest
      end
  end.

(** The lines printed by the body for the deltas [ds], the first of them
    at the [r]-th reading of the clock. *)
Fixpoint message_lines (clk : nat -> Z) (t0 : Z) (r : nat) (ds : list ChoiceDelta) : list Line :=
  match ds with
  | [] => []
  | d :: ds' => MessageReceived (clk r - t0) d :: message_lines clk t0 (S r) ds'
  end.

(** The delays shown on the [MessageReceived] lines of an output. *)
Fixpoint elapsed_times (out : list Line) : list Z :=
  match out with
  | [] => []
  | MessageReceived t _ :: out' => t :: elapsed_times out'
  | _ :: out' => elapsed_times out'
  end.

(** The deltas shown on the [MessageReceived] lines of an output. *)
Fixpoint shown_messages (out : list Line) : list ChoiceDelta :=
  match out with
  | [] => []
  | MessageReceived _ d :: out' => d :: shown_messages out'
  | _ :: out' => shown_messages out'
  end.

(** The content a chunk carries: that of its first delta, when it is
    there and not empty. *)
Definition chunk_content (chunk : ChatCompletionChunk) : string :=
  match first_delta chunk with
  | Some {| delta_content := Some text |} => text
  | _ => ""
  end.

(** The contents of the chunks, one after the other. *)
Fixpoint concat_contents (chunks : list ChatCompletionChunk) : string :=
  match chunks with
  | [] => ""
  | chunk :: chunks' => chunk_content chunk +:+ concat_contents chunks'
  end.

(** A chunk the body can index: its list of choices is not empty. *)
Definition has_choice (chunk : ChatCompletionChunk) : Prop :=
  chunk_choices chunk <> [].

(** The clock never goes back. *)
Definition monotone (clk : nat -> Z) : Prop :=
  forall i j : nat, (i <= j)%nat -> clk i <= clk j.

(** The request cell 10 sends for the message list [msgs]. *)
Definition stream_request (m : string) (msgs : list Message) : Request :=
  {| model := m; messages := msgs; temperature := 0; stream := true |}.

(** In [w] the client is configured and the service answers the next
    streamed request for [msgs] with the stream [s]. *)
Definition answers (w : World) (msgs : list Message) (s : Stream) : Prop :=
  exists c m,
    client (globals w) = Some c /\
    GPT_MODEL (globals w) = Some m /\
    open_stream (service w) (length (issued w)) c (stream_request m msgs) = inr s.

(** The world in which the loop of [consume] starts. *)
Definition loop_entry (c : Client) (m : string) (msgs : list Message) (w : World) : World :=
  with_globals (bind_collected_messages [])
    (with_globals (bind_collected_chunks [])
      (with_globals (bind_response Streamed)
        (with_issued (issued w ++ [(c, stream_request m msgs)])
          (with_globals (bind_start_time (clock w (reads w)))
            (with_reads (S (reads w)) w))))).

(** Lines 209 to 211: what follows the loop. *)
Definition report : M unit :=
  t ← name "chunk_time" chunk_time;
  print (FullResponseReceivedAfter t) ;;
  collected ← name "collected_messages" collected_messages;
  assign (bind_full_reply_content (join_contents collected)) ;;
  text ← name "full_reply_content" full_reply_content;
  print (FullConversationReceived text).

(** * Postconditions of the loop and of cell 10 *)

(** What a run of the loop from [w] to [w'] with result [r] leaves behind,
    when it started at [start_time = t0] with [cs] and [ms] collected. *)
Record loop_post (s : Stream) (t0 : Z) (cs : list ChatCompletionChunk)
    (ms : list ChoiceDelta) (w w' : World) (r : Result unit) : Prop := {
  post_result : r = loop_result s;
  post_chunks : collected_chunks (globals w') = Some (cs ++ pulled s);
  post_messages : collected_messages (globals w') = Some (ms ++ accepted s);
  post_delivered : delivered w' = delivered w ++ pulled s;
  post_raised : raised w' = raised w ++ signalled s;
  post_stdout :
    stdout w' = stdout w ++ message_lines (clock w) t0 (reads w) (accepted s);
  post_reads : reads w' = (reads w + length (pulled s))%nat;
  post_chunk_time :
    chunk_time (globals w') =
    match pulled s with
    | [] => chunk_time (globals w)
    | _ :: _ => Some (clock w (reads w + length (pulled s) - 1)%nat - t0)
    end;
  post_environ : environ w' = environ w;
  post_clock : clock w' = clock w;
  post_service : service w' = service w;
  post_issued : issued w' = issued w;
  post_start_time : start_time (globals w') = Some t0;
  post_client : client (globals w') = client (globals w);
  post_GPT_MODEL : GPT_MODEL (globals w') = GPT_MODEL (globals w);
  post_response : response (globals w') = response (globals w);
  post_full_reply_content :
    full_reply_content (globals w') = full_reply_content (globals w)
}.

(** The reading of the clock shown on the last line of the loop. *)
Definition last_elapsed (w : World) (n : nat) : Z :=
  clock w (reads w + n)%nat - clock w (reads w).

(** What every run of [consume] on an opened stream leaves behind,
    whatever the stream does. *)
Record consume_post (w : World) (msgs : list Message) (s : Stream)
    (w' : World) : Prop := {
  cp_chunks : collected_chunks (globals w') = Some (pulled s);
  cp_messages : collected_messages (globals w') = Some (accepted s);
  cp_delivered : delivered w' = delivered w ++ pulled s;
  cp_raised : raised w' = raised w ++ signalled s;
  cp_issued :
    exists c m, client (globals w) = Some c /\ GPT_MODEL (globals w) = Some m /\
                issued w' = issued w ++ [(c, stream_request m msgs)];
  cp_reads : reads w' = (S (reads w) + length (pulled s))%nat;
  cp_environ : environ w' = environ w;
  cp_clock : clock w' = clock w;
  cp_service : service w' = service w;
  cp_chunk_time :
    chunk_time (globals w') =
    match pulled s with
    | [] => chunk_time (globals w)
    | _ :: _ => Some (last_elapsed w (length (pulled s)))
    end;
  cp_stdout :
    exists tail,
      stdout w' =
      stdout w ++
      message_lines (clock w) (clock w (reads w)) (S (reads w)) (accepted s) ++
      tail /\
      (tail = [] \/
       exists t text,
         tail = [FullResponseReceivedAfter t; FullConversationReceived text])
}.

(** Two readings of the same clock at equal positions. *)
Ltac same_reading :=
  unfold last_elapsed;
  match goal with
  | |- Some (clock _ ?x - _) = Some (clock _ ?y - _) =>
      replace x with y by (cbn; lia); reflexivity
  end.


(** * Stub transports and worlds of the scenarios *)

(** A service that answers every streamed request with [s] and refuses
    blocking ones. *)
Definition stub (s : Stream) : Service :=
  {| complete := fun _ _ _ =>
       inl (TransportError "stub: no blocking completion", false);
     open_stream := fun _ _ _ => inr s |}.

(** A clock that advances by one tick at every reading. *)
Definition ticking (n : nat) : Z := Z.of_nat n.

Definition stub_client : Client :=
  {| api_key := "ghp_stub"; base_url := endpoint |}.

(** The globals once cell 1 has run with the model [m]. *)
Definition configured (m : string) : Globals :=
  bind_client stub_client (bind_GPT_MODEL m fresh_kernel).

(** A configured kernel in front of the stub that streams [s]. *)
Definition stub_world (s : Stream) : World :=
  {| environ := ∅; http_client := fun _ => None;
     clock := ticking; reads := 0; stdout := [];
     service := stub s; issued := []; delivered := []; raised := [];
     globals := configured "m" |}.

(** The same with another clock and something already printed. *)
Definition later_world (s : Stream) : World :=
  {| environ := ∅; http_client := fun _ => None;
     clock := fun n => 7 + 3 * Z.of_nat n; reads := 5;
     stdout := [FullConversationReceived "earlier"];
     service := stub s; issued := []; delivered := []; raised := [];
     globals := configured "m" |}.

(** A fresh kernel whose environment holds [GITHUB_TOKEN] as given. *)
Definition startup_world (token : option string) : World :=
  {| environ :=
       match token with
       | Some v => {[ GITHUB_TOKEN := v ]}
       | None => ∅
       end;
     http_client := fun _ => None;
     clock := ticking; reads := 0; stdout := [];
     service := stub Closed; issued := []; delivered := []; raised := [];
     globals := fresh_kernel |}.

(** A chunk with one choice carrying the given delta. *)
Definition fragment (r : option Role) (text : option string) : ChatCompletionChunk :=
  {| chunk_choices := [ {| delta := {| delta_role := r; delta_content := text |} |} ] |}.

(** The three fragments [{role: assistant}], [{content: "Two"}] and [{}]. *)
Definition role_fragment : ChatCompletionChunk := fragment (Some assistant) None.
Definition two_fragment : ChatCompletionChunk := fragment None (Some "Two").
Definition empty_fragment : ChatCompletionChunk := fragment None None.

(** A chunk whose list of choices is empty. *)
Definition no_choices : ChatCompletionChunk := {| chunk_choices := [] |}.

Definition short_question : list Message :=
  [ {| role := user; content := "1+1?" |} ].

(** * The other cells: requests, whole streams, stubs *)

(** The request of cell 3: [stream] is left out of the call. *)
Definition blocking_request (m : string) (msgs : list Message) : Request :=
  {| model := m; messages := msgs; temperature := 0; stream := false |}.

(** Every chunk a stream yields when it is iterated to its end. *)
Fixpoint every_chunk (s : Stream) : list ChatCompletionChunk :=
  match s with
  | Closed | Failed _ => []
  | Next chunk rest => chunk :: every_chunk rest
  end.

(** How a stream ends when it is iterated to its end. *)
Fixpoint stream_end (s : Stream) : Result unit :=
  match s with
  | Closed => Ok tt
  | Failed e => Raise e
  | Next _ rest => stream_end rest
  end.

(** The failure at the end of a stream, if it ends with one. *)
Fixpoint stream_failure (s : Stream) : list Exn :=
  match s with
  | Closed => []
  | Failed e => [e]
  | Next _ rest => stream_failure rest
  end.

(** The first candidate of a completion, as [choices[0].message] reads it. *)
Definition first_candidate (r : ChatCompletion) : option ChatCompletionMessage :=
  match choices r with
  | [] => None
  | c :: _ => Some (message c)
  end.

(** A completion with one candidate and its usage counters. *)
Definition counted : ChatCompletion :=
  {| choices :=
       [ {| message := {| message_role := assistant;
                          message_content := Some "1, 2, 3" |} |} ];
     usage := Some {| prompt_tokens := 36; completion_tokens := 8;
                      total_tokens := 44 |} |}.

(** A completion without candidates. *)
Definition no_candidates : ChatCompletion :=
  {| choices := []; usage := None |}.

(** A service that answers blocking requests with [r], the second request
    it receives with the stream [s7] and any other streamed request with
    [s10]. *)
Definition notebook_stub (r : (Exn * bool) + ChatCompletion) (s7 s10 : Stream) : Service :=
  {| complete := fun _ _ _ => r;
     open_stream := fun n _ _ =>
       match n with
       | 1%nat => inr s7
       | _ => inr s10
       end |}.

(** A configured kernel in front of a service that answers blocking
    requests with [r]. *)
Definition blocking_world (r : (Exn * bool) + ChatCompletion) : World :=
  {| environ := ∅; http_client := fun _ => None;
     clock := ticking; reads := 0; stdout := [];
     service := notebook_stub r Closed Closed;
     issued := []; delivered := []; raised := [];
     globals := configured "m" |}.

(** A service that refuses every request, with [again] telling whether
    the client retries the refusal. *)
Definition refusing (e : Exn) (again : bool) : Service :=
  {| complete := fun _ _ _ => inl (e, again);
     open_stream := fun _ _ _ => inl (e, again) |}.

(** A configured kernel that has run cell 10 before, in front of a
    service that answers as [svc]. *)
Definition rerun_world (svc : Service) : World :=
  {| environ := ∅; http_client := fun _ => None;
     clock := ticking; reads := 9;
     stdout := [FullConversationReceived "earlier"];
     service := svc; issued := []; delivered := []; raised := [];
     globals :=
       bind_full_reply_content "earlier"
         (bind_chunk_time 42
           (bind_collected_messages
              [ {| delta_role := None; delta_content := Some "earlier" |} ]
              (bind_collected_chunks [fragment None (Some "earlier")]
                 (configured "m")))) |}.

(** A fresh kernel with the token in the environment, in front of the
    service of a whole run. *)
Definition notebook_world (token : string) (svc : Service) : World :=
  {| environ := {[ GITHUB_TOKEN := token ]};
     http_client := fun _ => None;
     clock := ticking; reads := 0; stdout := [];
     service := svc; issued := []; delivered := []; raised := [];
     globals := fresh_kernel |}.

(** The world cell 3 leaves when the service answers with [r]. *)
Definition after_cell_3 (c : Client) (m : string) (r : ChatCompletion) (w : World) : World :=
  let t := clock w (S (reads w)) - clock w (reads w) in
  let timed :=
    with_globals (bind_response_time t)
      (with_reads (S (S (reads w)))
        (with_globals (bind_response (Completed r))
          (with_issued (issued w ++ [(c, blocking_request m count_to_100)])
            (with_globals (bind_start_time (clock w (reads w)))
              (with_reads (S (reads w)) w))))) in
  with_stdout
    ((stdout w ++ [FullResponseReceivedAfter t]) ++ [FullResponseReceived r])
    (with_stdout (stdout w ++ [FullResponseReceivedAfter t]) timed).

(** The world a loop that prints every chunk of [s] leaves. *)
Definition after_printing (s : Stream) (w : World) : World :=
  with_raised (raised w ++ stream_failure s)
    (with_stdout (stdout w ++ map PrintedChunk (every_chunk s))
      (with_delivered (delivered w ++ every_chunk s) w)).

(** The world cell 7 leaves when the service opens the stream [s]. *)
Definition after_cell_7 (c : Client) (m : string) (s : Stream) (w : World) : World :=
  after_printing s
    (with_globals (bind_response Streamed)
      (with_issued (issued w ++ [(c, stream_request m one_plus_one)]) w)).

(** The client cell 1 builds from the token. *)
Definition github_client (token : string) : Client :=
  {| api_key := token; base_url := endpoint |}.

(** The model cell 1 names. *)
Definition gpt_4o_mini : string := "openai/gpt-4o-mini".

(** * Proofs *)

(** ** The loop, one chunk at a time *)

Lemma for_chunk_in_next chunk rest body w :
  for_chunk_in (Next chunk rest) body w =
  match body chunk (with_delivered (delivered w ++ [chunk]) w) with
  | (Ok _, w') => for_chunk_in rest body w'
  | (Raise e, w') => (Raise e, w')
  end.
Proof. reflexivity. Qed.

(** The body on a chunk that has a first choice. *)
Lemma collect_accepts chunk d w t0 chunks msgs :
  first_delta chunk = Some d ->
  start_time (globals w) = Some t0 ->
  collected_chunks (globals w) = Some chunks ->
  collected_messages (globals w) = Some msgs ->
  collect chunk w =
  (Ok tt,
   with_stdout (stdout w ++ [MessageReceived (clock w (reads w) - t0) d])
     (with_globals (bind_collected_messages (msgs ++ [d]))
       (with_globals (bind_collected_chunks (chunks ++ [chunk]))
         (with_globals (bind_chunk_time (clock w (reads w) - t0))
           (with_reads (S (reads w)) w))))).
Proof.
  unfold first_delta. intros Hd Ht Hc Hm.
  destruct (chunk_choices chunk) as [|c cs] eqn:Hch; [discriminate|].
  injection Hd as <-.
  unfold collect, mbind, M_bind, time_time, name, assign, modify, print.
  cbn. rewrite Ht. cbn. rewrite Hc. cbn. rewrite Hch. cbn. rewrite Hm.
  reflexivity.
Qed.

(** The body on a chunk without choices: the chunk is kept, then the
    indexing raises. *)
Lemma collect_rejects chunk w t0 chunks :
  first_delta chunk = None ->
  start_time (globals w) = Some t0 ->
  collected_chunks (globals w) = Some chunks ->
  collect chunk w =
  (Raise IndexError,
   with_globals (bind_collected_chunks (chunks ++ [chunk]))
     (with_globals (bind_chunk_time (clock w (reads w) - t0))
       (with_reads (S (reads w)) w))).
Proof.
  unfold first_delta. intros Hd Ht Hc.
  destruct (chunk_choices chunk) as [|c cs] eqn:Hch; [|discriminate].
  unfold collect, mbind, M_bind, time_time, name, assign, modify, print.
  cbn. rewrite Ht. cbn. rewrite Hc. cbn. rewrite Hch.
  reflexivity.
Qed.

(** ** The loop as a whole *)

Lemma for_chunk_in_collect s : forall w t0 cs ms,
  start_time (globals w) = Some t0 ->
  collected_chunks (globals w) = Some cs ->
  collected_messages (globals w) = Some ms ->
  loop_post s t0 cs ms w
    (snd (for_chunk_in s collect w)) (fst (for_chunk_in s collect w)).
Proof.
  induction s as [|e|chunk rest IH]; intros w t0 cs ms Ht Hc Hm.
  - cbn. split; cbn; rewrite ?app_nil_r, ?Nat.add_0_r; auto.
  - cbn. split; cbn; rewrite ?app_nil_r, ?Nat.add_0_r; auto.
  - rewrite for_chunk_in_next.
    destruct (first_delta chunk) as [d|] eqn:Hd.
    + erewrite collect_accepts by (cbn; eauto).
      match goal with |- context [for_chunk_in rest collect ?w1] =>
        specialize (IH w1 t0 (cs ++ [chunk]) (ms ++ [d]) Ht eq_refl eq_refl);
        destruct IH as [R C Ms D X O Rd Ct E K Sv I St Cl G Rs F];
        cbn in C, Ms, D, X, O, Rd, Ct, E, K, Sv, I, St, Cl, G, Rs, F
      end.
      split; cbn; rewrite ?Hd; cbn; auto.
      * rewrite C, <- app_assoc. reflexivity.
      * rewrite Ms, <- app_assoc. reflexivity.
      * rewrite D, <- app_assoc. reflexivity.
      * rewrite O, <- app_assoc. reflexivity.
      * rewrite Rd. lia.
      * rewrite Ct. destruct (pulled rest); cbn; do 3 f_equal; lia.
    + erewrite collect_rejects by (cbn; eauto).
      split; cbn; rewrite ?Hd; cbn; rewrite ?app_nil_r; auto.
      * lia.
      * do 3 f_equal. lia.
Qed.

(** ** Lists of chunks and the lines printed for them *)

Lemma first_delta_has_choice chunk :
  has_choice chunk <-> exists d, first_delta chunk = Some d.
Proof.
  unfold has_choice, first_delta.
  destruct (chunk_choices chunk) as [|c cs]; split.
  - intros H. destruct H. reflexivity.
  - intros [d Hd]. discriminate.
  - intros _. exists (delta c). reflexivity.
  - intros _. discriminate.
Qed.

Lemma first_delta_no_choice chunk :
  ~ has_choice chunk <-> first_delta chunk = None.
Proof.
  unfold has_choice, first_delta.
  destruct (chunk_choices chunk) as [|c cs]; split; try discriminate; auto.
  intros H. destruct H. discriminate.
Qed.

Lemma loop_result_yielding chunks ending :
  Forall has_choice chunks ->
  loop_result (yielding chunks ending) = loop_result ending.
Proof.
  induction 1 as [|chunk chunks Hc _ IH]; [reflexivity|].
  apply first_delta_has_choice in Hc as [d Hd]. cbn. rewrite Hd. exact IH.
Qed.

Lemma pulled_yielding chunks ending :
  Forall has_choice chunks ->
  pulled (yielding chunks ending) = chunks ++ pulled ending.
Proof.
  induction 1 as [|chunk chunks Hc _ IH]; [reflexivity|].
  apply first_delta_has_choice in Hc as [d Hd]. cbn. rewrite Hd, IH. reflexivity.
Qed.

Lemma accepted_yielding chunks ending :
  Forall has_choice chunks ->
  map Some (accepted (yielding chunks ending)) =
  map first_delta chunks ++ map Some (accepted ending).
Proof.
  induction 1 as [|chunk chunks Hc _ IH]; [reflexivity|].
  apply first_delta_has_choice in Hc as [d Hd]. cbn. rewrite Hd. cbn.
  rewrite IH. reflexivity.
Qed.

Lemma accepted_length_yielding chunks ending :
  Forall has_choice chunks ->
  length (accepted (yielding chunks ending)) =
  (length chunks + length (accepted ending))%nat.
Proof.
  intros H. apply accepted_yielding with (ending := ending) in H.
  apply (f_equal (@length _)) in H.
  rewrite length_app, !length_map in H. exact H.
Qed.

Lemma elapsed_times_app out1 out2 :
  elapsed_times (out1 ++ out2) = elapsed_times out1 ++ elapsed_times out2.
Proof.
  induction out1 as [|l out1 IH]; [reflexivity|].
  destruct l; cbn; rewrite IH; reflexivity.
Qed.

Lemma shown_messages_app out1 out2 :
  shown_messages (out1 ++ out2) = shown_messages out1 ++ shown_messages out2.
Proof.
  induction out1 as [|l out1 IH]; [reflexivity|].
  destruct l; cbn; rewrite IH; reflexivity.
Qed.

Lemma shown_message_lines clk t0 ds : forall r,
  shown_messages (message_lines clk t0 r ds) = ds.
Proof.
  induction ds as [|d ds IH]; intros r; cbn; [reflexivity|].
  rewrite IH. reflexivity.
Qed.

Lemma length_message_lines clk t0 ds : forall r,
  length (message_lines clk t0 r ds) = length ds.
Proof.
  induction ds as [|d ds IH]; intros r; cbn; [reflexivity|].
  rewrite IH. reflexivity.
Qed.

(** The [i]-th line shows the delay of the [i]-th reading after [r]. *)
Lemma elapsed_message_lines clk t0 ds : forall r,
  elapsed_times (message_lines clk t0 r ds) =
  map (fun i => clk (r + i)%nat - t0) (seq 0 (length ds)).
Proof.
  induction ds as [|d ds IH]; intros r; cbn; [reflexivity|].
  rewrite IH, <- seq_shift, map_map, Nat.add_0_r.
  f_equal. apply map_ext. intros i. do 2 f_equal. lia.
Qed.

Lemma elapsed_message_lines_bounds clk t0 ds : forall r t,
  monotone clk ->
  In t (elapsed_times (message_lines clk t0 r ds)) ->
  clk r - t0 <= t <= clk (r + length ds - 1)%nat - t0.
Proof.
  intros r t Hclk. rewrite elapsed_message_lines.
  intros Hin. apply in_map_iff in Hin as (i & <- & Hi).
  apply in_seq in Hi.
  pose proof (Hclk r (r + i)%nat ltac:(lia)).
  pose proof (Hclk (r + i)%nat (r + length ds - 1)%nat ltac:(lia)).
  lia.
Qed.

(** With a clock that never goes back the delays never decrease. *)
Lemma elapsed_message_lines_sorted clk t0 ds : forall r,
  monotone clk ->
  Sorted Z.le (elapsed_times (message_lines clk t0 r ds)).
Proof.
  induction ds as [|d ds IH]; intros r Hclk; cbn; [constructor|].
  constructor; [apply IH; exact Hclk|].
  destruct ds as [|d' ds]; cbn; constructor.
  pose proof (Hclk r (S r) ltac:(lia)). lia.
Qed.

(** ** Joining the contents *)

Lemma append_empty_r (s : string) : s +:+ "" = s.
Proof.
  induction s as [|a s IH]; [reflexivity|].
  change (String a (s +:+ "") = String a s). f_equal. exact IH.
Qed.

Lemma concat_empty_cons (x : string) (xs : list string) :
  String.concat "" (x :: xs) = x +:+ String.concat "" xs.
Proof.
  destruct xs as [|y ys]; cbn.
  - symmetry. apply append_empty_r.
  - reflexivity.
Qed.

Lemma join_contents_cons d ds :
  join_contents (d :: ds) = content_or_empty d +:+ join_contents ds.
Proof. unfold join_contents. cbn [map]. apply concat_empty_cons. Qed.

Lemma content_or_empty_first_delta chunk d :
  first_delta chunk = Some d -> content_or_empty d = chunk_content chunk.
Proof.
  unfold chunk_content, content_or_empty. intros ->.
  destruct d as [r [[|a text]|]]; reflexivity.
Qed.

(** [''.join(...)] over the collected deltas is the concatenation of the
    contents of the chunks they were taken from. *)
Lemma join_contents_chunks chunks : forall ds,
  map Some ds = map first_delta chunks ->
  join_contents ds = concat_contents chunks.
Proof.
  induction chunks as [|chunk chunks IH]; intros [|d ds] H; try discriminate.
  - reflexivity.
  - cbn in H. injection H as Hd Hds.
    rewrite join_contents_cons. cbn [concat_contents].
    rewrite (content_or_empty_first_delta chunk d) by (symmetry; exact Hd).
    rewrite (IH ds Hds). reflexivity.
Qed.

(** ** Cell 10 around its loop *)

Lemma consume_enters w msgs c m s :
  client (globals w) = Some c ->
  GPT_MODEL (globals w) = Some m ->
  open_stream (service w) (length (issued w)) c (stream_request m msgs) = inr s ->
  consume msgs w =
  match for_chunk_in s collect (loop_entry c m msgs w) with
  | (Ok _, w1) => report w1
  | (Raise e, w1) => (Raise e, w1)
  end.
Proof.
  intros Hc Hm Hs.
  unfold consume, mbind, M_bind, time_time, name, assign, modify, create_stream.
  cbn. rewrite Hc. cbn. rewrite Hm. cbn.
  unfold stream_request in Hs. rewrite Hs. cbn.
  reflexivity.
Qed.

Lemma report_bound w t ms :
  chunk_time (globals w) = Some t ->
  collected_messages (globals w) = Some ms ->
  report w =
  (Ok tt,
   with_stdout
     ((stdout w ++ [FullResponseReceivedAfter t]) ++
      [FullConversationReceived (join_contents ms)])
     (with_globals (bind_full_reply_content (join_contents ms))
       (with_stdout (stdout w ++ [FullResponseReceivedAfter t]) w))).
Proof.
  intros Ht Hm.
  unfold report, mbind, M_bind, name, assign, modify, print.
  rewrite Ht. cbn. rewrite Hm. reflexivity.
Qed.

Lemma report_unbound w :
  chunk_time (globals w) = None ->
  report w = (Raise (NameError "chunk_time"), w).
Proof.
  intros Ht. unfold report, mbind, M_bind, name. rewrite Ht. reflexivity.
Qed.

Lemma consume_leaves w msgs s :
  answers w msgs s ->
  consume_post w msgs s (snd (consume msgs w)).
Proof.
  intros (c & m & Hc & Hm & Hs).
  rewrite (consume_enters w msgs c m s Hc Hm Hs).
  pose proof (for_chunk_in_collect s (loop_entry c m msgs w)
                (clock w (reads w)) [] [] eq_refl eq_refl eq_refl) as P.
  destruct (for_chunk_in s collect (loop_entry c m msgs w)) as [[[]|e] w1].
  - destruct P as [R C Ms D X O Rd Ct E K Sv I St Cl G Rs F].
    cbn in R, C, Ms, D, X, O, Rd, Ct, E, K, Sv, I, St, Cl, G, Rs, F.
    destruct (chunk_time (globals w1)) as [t|] eqn:Ht.
    + rewrite (report_bound w1 t _ Ht Ms). cbn.
      split; cbn; auto.
      * exists c, m. auto.
      * rewrite Ht, Ct. destruct (pulled s) as [|p ps]; [reflexivity|].
        same_reading.
      * eexists. rewrite O, <- !app_assoc. split; [reflexivity|].
        right. eauto.
    + rewrite (report_unbound w1 Ht). cbn.
      split; cbn; auto.
      * exists c, m. auto.
      * rewrite Ht, Ct. destruct (pulled s) as [|p ps]; [reflexivity|].
        same_reading.
      * exists []. rewrite O, app_nil_r. auto.
  - destruct P as [R C Ms D X O Rd Ct E K Sv I St Cl G Rs F].
    cbn in R, C, Ms, D, X, O, Rd, Ct, E, K, Sv, I, St, Cl, G, Rs, F.
    cbn. split; cbn; auto.
    + exists c, m. auto.
    + rewrite Ct. destruct (pulled s) as [|p ps]; [reflexivity|].
      same_reading.
    + exists []. rewrite O, app_nil_r. auto.
Qed.

(** The run raises what the loop raises, and nothing is reported. *)
Lemma consume_raises w msgs s e :
  answers w msgs s ->
  loop_result s = Raise e ->
  fst (consume msgs w) = Raise e /\
  stdout (snd (consume msgs w)) =
    stdout w ++
    message_lines (clock w) (clock w (reads w)) (S (reads w)) (accepted s) /\
  full_reply_content (globals (snd (consume msgs w))) =
    full_reply_content (globals w).
Proof.
  intros (c & m & Hc & Hm & Hs) He.
  rewrite (consume_enters w msgs c m s Hc Hm Hs).
  pose proof (for_chunk_in_collect s (loop_entry c m msgs w)
                (clock w (reads w)) [] [] eq_refl eq_refl eq_refl) as P.
  destruct (for_chunk_in s collect (loop_entry c m msgs w)) as [[[]|e'] w1];
    destruct P as [R C Ms D X O Rd Ct E K Sv I St Cl G Rs F];
    cbn in R, C, Ms, D, X, O, Rd, Ct, E, K, Sv, I, St, Cl, G, Rs, F.
  - congruence.
  - cbn. repeat split; [congruence | exact O | exact F].
Qed.

(** The run returns when the stream closes after at least one chunk and
    every chunk had a first choice. *)
Lemma consume_returns w msgs s :
  answers w msgs s ->
  loop_result s = Ok tt ->
  pulled s <> [] ->
  fst (consume msgs w) = Ok tt /\
  stdout (snd (consume msgs w)) =
    stdout w ++
    message_lines (clock w) (clock w (reads w)) (S (reads w)) (accepted s) ++
    [FullResponseReceivedAfter (last_elapsed w (length (pulled s)));
     FullConversationReceived (join_contents (accepted s))] /\
  full_reply_content (globals (snd (consume msgs w))) =
    Some (join_contents (accepted s)).
Proof.
  intros (c & m & Hc & Hm & Hs) He Hp.
  rewrite (consume_enters w msgs c m s Hc Hm Hs).
  pose proof (for_chunk_in_collect s (loop_entry c m msgs w)
                (clock w (reads w)) [] [] eq_refl eq_refl eq_refl) as P.
  destruct (for_chunk_in s collect (loop_entry c m msgs w)) as [[[]|e'] w1];
    destruct P as [R C Ms D X O Rd Ct E K Sv I St Cl G Rs F];
    cbn in R, C, Ms, D, X, O, Rd, Ct, E, K, Sv, I, St, Cl, G, Rs, F.
  - destruct (pulled s) as [|p ps] eqn:Hps; [congruence|].
    assert (Ct' : chunk_time (globals w1) =
                  Some (last_elapsed w (length (p :: ps))))
      by (rewrite Ct; same_reading).
    rewrite (report_bound w1 _ _ Ct' Ms). cbn.
    repeat split. rewrite O, <- !app_assoc. reflexivity.
  - congruence.
Qed.

(** ** Cell 1 *)

Lemma truthy_false (v : option string) :
  truthy v = false <-> v = None \/ v = Some "".
Proof.
  destruct v as [[|a s]|]; cbn; split; intros H; auto; try discriminate.
  destruct H as [H|H]; discriminate.
Qed.

Lemma truthy_true (v : option string) :
  truthy v = true <-> exists text, v = Some text /\ text <> "".
Proof.
  destruct v as [[|a s]|]; cbn; split; intros H; try discriminate.
  - destruct H as (text & [= <-] & Hne). destruct Hne. reflexivity.
  - exists (String a s). split; [reflexivity|discriminate].
  - reflexivity.
  - destruct H as (text & Hv & _). discriminate.
Qed.

(** The check of line 46 stops the cell before anything is written. *)
Lemma configure_rejects w :
  truthy (environ w !! GITHUB_TOKEN) = false ->
  configure w = (Raise (ValueError "GITHUB_TOKEN is not set"), w).
Proof.
  intros H. unfold configure, mbind, M_bind, getenv, get. rewrite H.
  reflexivity.
Qed.

(** [OpenAI()] when the key is in the environment and the HTTP client
    can be built. *)
Lemma OpenAI_reads w key :
  environ w !! OPENAI_API_KEY = Some key ->
  http_client w (environ w) = None ->
  OpenAI w =
  (Ok {| api_key := key;
         base_url := default "https://api.openai.com/v1"
                       (environ w !! OPENAI_BASE_URL) |}, w).
Proof.
  intros H Hh. unfold OpenAI, mbind, M_bind, getenv, get.
  fold OPENAI_API_KEY. rewrite H, Hh. reflexivity.
Qed.

(** [OpenAI()] when the key is there and building the HTTP client raises. *)
Lemma OpenAI_raises w key e :
  environ w !! OPENAI_API_KEY = Some key ->
  http_client w (environ w) = Some e ->
  OpenAI w = (Raise e, w).
Proof.
  intros H Hh. unfold OpenAI, mbind, M_bind, getenv, get.
  fold OPENAI_API_KEY. rewrite H, Hh. reflexivity.
Qed.

(** Past the check, with an HTTP client that can be built, the cell runs
    to its end. *)
Lemma configure_accepts w token :
  environ w !! GITHUB_TOKEN = Some token ->
  token <> "" ->
  http_client w
    (<[OPENAI_BASE_URL := endpoint]> (<[OPENAI_API_KEY := token]> (environ w))) =
    None ->
  configure w =
  (Ok tt,
   with_globals (bind_client {| api_key := token; base_url := endpoint |})
     (with_globals (bind_GPT_MODEL "openai/gpt-4o-mini")
       (with_environ (insert OPENAI_BASE_URL endpoint)
         (with_environ (insert OPENAI_API_KEY token) w)))).
Proof.
  intros Hv Hne Hh.
  assert (Ht : truthy (environ w !! GITHUB_TOKEN) = true)
    by (apply truthy_true; eauto).
  unfold configure, mbind, M_bind, getenv, get, setenv, assign, modify.
  rewrite Ht. cbn. rewrite Hv. cbn.
  rewrite (OpenAI_reads _ token).
  - cbn. rewrite lookup_insert_eq. reflexivity.
  - cbn. rewrite lookup_insert_ne by discriminate. apply lookup_insert_eq.
  - cbn. exact Hh.
Qed.

(** Past the check, when building the HTTP client raises: the two entries
    are written and [GPT_MODEL] is bound, [client] is not. *)
Lemma configure_constructor_raises w token e :
  environ w !! GITHUB_TOKEN = Some token ->
  token <> "" ->
  http_client w
    (<[OPENAI_BASE_URL := endpoint]> (<[OPENAI_API_KEY := token]> (environ w))) =
    Some e ->
  configure w =
  (Raise e,
   with_globals (bind_GPT_MODEL "openai/gpt-4o-mini")
     (with_environ (insert OPENAI_BASE_URL endpoint)
       (with_environ (insert OPENAI_API_KEY token) w))).
Proof.
  intros Hv Hne Hh.
  assert (Ht : truthy (environ w !! GITHUB_TOKEN) = true)
    by (apply truthy_true; eauto).
  unfold configure, mbind, M_bind, getenv, get, setenv, assign, modify.
  rewrite Ht. cbn. rewrite Hv. cbn.
  rewrite (OpenAI_raises _ token e).
  - reflexivity.
  - cbn. rewrite lookup_insert_ne by discriminate. apply lookup_insert_eq.
  - cbn. exact Hh.
Qed.

(** ** Streams that fail, streams that stop at a chunk without choices *)

(** The deltas collected are those of the chunks pulled, but for a last
    chunk without choices. *)
Lemma accepted_pulled s :
  exists rest,
    map first_delta (pulled s) = map Some (accepted s) ++ rest /\
    (rest = [] \/ rest = [None]).
Proof.
  induction s as [|e|chunk s IH].
  - exists []. auto.
  - exists []. auto.
  - cbn. destruct (first_delta chunk) as [d|] eqn:Hd.
    + destruct IH as (rest & Hr & Hc). exists rest. cbn.
      rewrite Hd, Hr. auto.
    + exists [None]. cbn. rewrite Hd. auto.
Qed.

Lemma accepted_length_le s : (length (accepted s) <= length (pulled s))%nat.
Proof.
  destruct (accepted_pulled s) as (rest & Hr & _).
  apply (f_equal (@length _)) in Hr.
  rewrite length_app, !length_map in Hr. lia.
Qed.

(** A line shows the delta of the chunk at the same position of the log. *)
Lemma accepted_lookup s i d :
  accepted s !! i = Some d ->
  exists chunk, pulled s !! i = Some chunk /\ first_delta chunk = Some d.
Proof.
  intros Hi.
  destruct (accepted_pulled s) as (rest & Hr & _).
  assert (Hl : (map first_delta (pulled s)) !! i = Some (Some d)).
  { rewrite Hr. apply lookup_app_l_Some.
    rewrite list_lookup_fmap, Hi. reflexivity. }
  rewrite list_lookup_fmap in Hl.
  destruct (pulled s !! i) as [chunk|]; [|discriminate].
  exists chunk. split; [reflexivity|]. cbn in Hl. congruence.
Qed.

(** When the stream signals a failure, every chunk before it went through
    the body and the loop raises that failure. *)
Lemma signalled_failure s e :
  signalled s = [e] ->
  loop_result s = Raise e /\
  map Some (accepted s) = map first_delta (pulled s).
Proof.
  induction s as [|e'|chunk s IH]; cbn.
  - discriminate.
  - intros [= ->]. auto.
  - destruct (first_delta chunk) as [d|] eqn:Hd; [|discriminate].
    intros H. destruct (IH H) as [Hr Ha]. cbn. rewrite Hd, Ha. auto.
Qed.

(** The loop stops at the first chunk without choices. *)
Lemma loop_stops_at_no_choice good bad rest :
  Forall has_choice good ->
  ~ has_choice bad ->
  loop_result (yielding good (Next bad rest)) = Raise IndexError /\
  pulled (yielding good (Next bad rest)) = good ++ [bad] /\
  map Some (accepted (yielding good (Next bad rest))) = map first_delta good /\
  signalled (yielding good (Next bad rest)) = [].
Proof.
  intros Hg Hb. apply first_delta_no_choice in Hb.
  induction Hg as [|chunk good Hc _ IH]; cbn.
  - rewrite Hb. auto.
  - apply first_delta_has_choice in Hc as [d Hd]. rewrite Hd.
    destruct IH as (Hr & Hp & Ha & Hs). cbn. rewrite Hp, Ha. auto.
Qed.

Lemma signalled_yielding chunks ending :
  Forall has_choice chunks ->
  signalled (yielding chunks ending) = signalled ending.
Proof.
  induction 1 as [|chunk chunks Hc _ IH]; [reflexivity|].
  apply first_delta_has_choice in Hc as [d Hd]. cbn. rewrite Hd. exact IH.
Qed.

(** The delays on the lines of the loop, counted from the start. *)
Lemma elapsed_message_lines_from_start w ds :
  elapsed_times
    (message_lines (clock w) (clock w (reads w)) (S (reads w)) ds) =
  map (fun i => last_elapsed w (S i)) (seq 0 (length ds)).
Proof.
  rewrite elapsed_message_lines. apply map_ext. intros i.
  unfold last_elapsed. do 2 f_equal. lia.
Qed.

(** ** What a run that returns has computed *)

Lemma consume_ok_text w msgs s :
  answers w msgs s ->
  fst (consume msgs w) = Ok tt ->
  full_reply_content (globals (snd (consume msgs w))) =
    Some (join_contents (accepted s)).
Proof.
  intros (c & m & Hc & Hm & Hs).
  rewrite (consume_enters w msgs c m s Hc Hm Hs).
  pose proof (for_chunk_in_collect s (loop_entry c m msgs w)
                (clock w (reads w)) [] [] eq_refl eq_refl eq_refl) as P.
  destruct (for_chunk_in s collect (loop_entry c m msgs w)) as [[[]|e'] w1];
    destruct P as [R C Ms D X O Rd Ct E K Sv I St Cl G Rs F];
    cbn in Ms; [|discriminate].
  destruct (chunk_time (globals w1)) as [t|] eqn:Ht.
  - rewrite (report_bound w1 t _ Ht Ms). reflexivity.
  - rewrite (report_unbound w1 Ht). discriminate.
Qed.



(** On a stream that closes at once, the run returns only if an earlier
    run has left [chunk_time] bound. *)
Lemma consume_closed_at_once w msgs :
  answers w msgs Closed ->
  fst (consume msgs w) =
  match chunk_time (globals w) with
  | Some _ => Ok tt
  | None => Raise (NameError "chunk_time")
  end.
Proof.
  intros (c & m & Hc & Hm & Hs).
  rewrite (consume_enters w msgs c m Closed Hc Hm Hs).
  change (fst (report (loop_entry c m msgs w)) =
          match chunk_time (globals w) with
          | Some _ => Ok tt
          | None => Raise (NameError "chunk_time")
          end).
  destruct (chunk_time (globals w)) as [t|] eqn:Ht.
  - rewrite (report_bound (loop_entry c m msgs w) t [] Ht eq_refl). reflexivity.
  - rewrite (report_unbound (loop_entry c m msgs w) Ht). reflexivity.
Qed.

(** * Client configuration *)

Lemma configure_succeeds_iff w :
  fst (configure w) = Ok tt <->
  exists token,
    environ w !! GITHUB_TOKEN = Some token /\ token <> "" /\
    http_client w
      (<[OPENAI_BASE_URL := endpoint]> (<[OPENAI_API_KEY := token]> (environ w))) =
      None.
Proof.
  split.
  - intros H. destruct (truthy (environ w !! GITHUB_TOKEN)) eqn:Ht.
    + apply truthy_true in Ht as (token & Hv & Hne). exists token.
      destruct (http_client w
                  (<[OPENAI_BASE_URL := endpoint]>
                     (<[OPENAI_API_KEY := token]> (environ w)))) as [e|] eqn:Hh;
        [|auto].
      rewrite (configure_constructor_raises w token e Hv Hne Hh) in H.
      discriminate.
    + rewrite (configure_rejects w Ht) in H. discriminate.
  - intros (token & Hv & Hne & Hh).
    rewrite (configure_accepts w token Hv Hne Hh). reflexivity.
Qed.

(** C3. When [GITHUB_TOKEN] is unset, the configuration step raises
    [ValueError("GITHUB_TOKEN is not set")], the notebook's configuration
    error, and leaves the world as it found it; whatever cells follow it do
    not run, so no request reaches the service. *)
Theorem configure_unset_raises_before_any_request (w : World) (rest : M unit) :
  environ w !! GITHUB_TOKEN = None ->
  configure w = (Raise (ValueError "GITHUB_TOKEN is not set"), w) /\
  (configure ;; rest) w = (Raise (ValueError "GITHUB_TOKEN is not set"), w) /\
  issued (snd ((configure ;; rest) w)) = issued w.
Proof.
  intros H.
  assert (Hc : configure w = (Raise (ValueError "GITHUB_TOKEN is not set"), w))
    by (apply configure_rejects; rewrite H; reflexivity).
  assert (Hr : (configure ;; rest) w =
               (Raise (ValueError "GITHUB_TOKEN is not set"), w))
    by (unfold mbind, M_bind; rewrite Hc; reflexivity).
  rewrite Hr. auto.
Qed.

Lemma configure_unset_raises_before_any_request_witness :
  configure (startup_world None) =
    (Raise (ValueError "GITHUB_TOKEN is not set"), startup_world None) /\
  (configure ;; (cell_3 ;; cell_5 ;; cell_7 ;; cell_10 ;; cell_11))
    (startup_world None) =
    (Raise (ValueError "GITHUB_TOKEN is not set"), startup_world None) /\
  issued (snd ((configure ;; (cell_3 ;; cell_5 ;; cell_7 ;; cell_10 ;; cell_11))
                 (startup_world None))) = [].
Proof.
  apply (configure_unset_raises_before_any_request (startup_world None)).
  reflexivity.
Defined.

(** The whole notebook, run from a kernel in which [GITHUB_TOKEN] is still
    unset once [load_dotenv] has run: it stops in cell 1 and the service
    has seen nothing. *)
Lemma notebook_unset_stops_in_cell_1 load_dotenv (w : World) :
  load_dotenv (environ w) !! GITHUB_TOKEN = None ->
  fst (notebook load_dotenv w) = Raise (ValueError "GITHUB_TOKEN is not set") /\
  issued (snd (notebook load_dotenv w)) = issued w /\
  delivered (snd (notebook load_dotenv w)) = delivered w /\
  raised (snd (notebook load_dotenv w)) = raised w.
Proof.
  intros H.
  assert (H1 : cell_1 load_dotenv w =
               (Raise (ValueError "GITHUB_TOKEN is not set"),
                with_environ load_dotenv w)).
  { unfold cell_1, mbind, M_bind, modify.
    rewrite configure_rejects by (cbn; rewrite H; reflexivity).
    reflexivity. }
  assert (Hn : notebook load_dotenv w =
               (Raise (ValueError "GITHUB_TOKEN is not set"),
                with_environ load_dotenv w))
    by (unfold notebook, mbind, M_bind; rewrite H1; reflexivity).
  rewrite Hn. cbn. auto.
Qed.

(** Cell 1 as a whole: [load_dotenv] first, then the two entries. *)
Lemma cell_1_environment load_dotenv (w : World) :
  fst (cell_1 load_dotenv w) = Ok tt ->
  exists token,
    load_dotenv (environ w) !! GITHUB_TOKEN = Some token /\
    environ (snd (cell_1 load_dotenv w)) =
      <[OPENAI_BASE_URL := endpoint]>
        (<[OPENAI_API_KEY := token]> (load_dotenv (environ w))).
Proof.
  unfold cell_1, mbind, M_bind, modify.
  set (w1 := with_environ load_dotenv w).
  intros H. apply (configure_succeeds_iff w1) in H as (token & Hv & Hne & Hh).
  rewrite (configure_accepts w1 token Hv Hne Hh).
  exists token. split; [exact Hv | reflexivity].
Qed.

(** C9. A [GITHUB_TOKEN] set to the empty string fails the check exactly
    as an unset one does: same exception, nothing written. *)
Theorem configure_empty_token_as_unset (w : World) :
  environ w !! GITHUB_TOKEN = Some "" ->
  configure w = (Raise (ValueError "GITHUB_TOKEN is not set"), w) /\
  configure (with_environ (delete GITHUB_TOKEN) w) =
    (Raise (ValueError "GITHUB_TOKEN is not set"),
     with_environ (delete GITHUB_TOKEN) w).
Proof.
  intros H. split; apply configure_rejects.
  - rewrite H. reflexivity.
  - cbn. rewrite lookup_delete_eq. reflexivity.
Qed.

Lemma configure_empty_token_as_unset_witness :
  configure (startup_world (Some "")) =
    (Raise (ValueError "GITHUB_TOKEN is not set"), startup_world (Some "")) /\
  configure (with_environ (delete GITHUB_TOKEN) (startup_world (Some ""))) =
    (Raise (ValueError "GITHUB_TOKEN is not set"),
     with_environ (delete GITHUB_TOKEN) (startup_world (Some ""))).
Proof.
  apply (configure_empty_token_as_unset (startup_world (Some ""))).
  reflexivity.
Defined.

(** C8. When the configuration step completes, the environment it leaves
    is the one it found with two entries written: [OPENAI_API_KEY] holds
    the value of [GITHUB_TOKEN] and [OPENAI_BASE_URL] holds
    ["https://models.github.ai/inference"]; every other name reads as
    before, and the client is built from these two. *)
Theorem configure_writes_two_entries (w : World) :
  fst (configure w) = Ok tt ->
  exists token,
    environ w !! GITHUB_TOKEN = Some token /\
    environ (snd (configure w)) =
      <[OPENAI_BASE_URL := "https://models.github.ai/inference"]>
        (<[OPENAI_API_KEY := token]> (environ w)) /\
    environ (snd (configure w)) !! OPENAI_API_KEY = Some token /\
    environ (snd (configure w)) !! OPENAI_BASE_URL =
      Some "https://models.github.ai/inference" /\
    (forall k, k <> OPENAI_API_KEY -> k <> OPENAI_BASE_URL ->
               environ (snd (configure w)) !! k = environ w !! k) /\
    client (globals (snd (configure w))) =
      Some {| api_key := token;
              base_url := "https://models.github.ai/inference" |}.
Proof.
  intros H. apply configure_succeeds_iff in H as (token & Hv & Hne & Hh).
  exists token. rewrite (configure_accepts w token Hv Hne Hh). cbn.
  repeat split; auto.
  - rewrite lookup_insert_ne by discriminate. apply lookup_insert_eq.
  - apply lookup_insert_eq.
  - intros k Hk Hu. rewrite !lookup_insert_ne by congruence. reflexivity.
Qed.

Lemma configure_writes_two_entries_witness :
  exists token,
    environ (startup_world (Some "ghp_abc")) !! GITHUB_TOKEN = Some token /\
    environ (snd (configure (startup_world (Some "ghp_abc")))) =
      <[OPENAI_BASE_URL := "https://models.github.ai/inference"]>
        (<[OPENAI_API_KEY := token]> (environ (startup_world (Some "ghp_abc")))) /\
    environ (snd (configure (startup_world (Some "ghp_abc")))) !! OPENAI_API_KEY =
      Some token /\
    environ (snd (configure (startup_world (Some "ghp_abc")))) !! OPENAI_BASE_URL =
      Some "https://models.github.ai/inference" /\
    (forall k, k <> OPENAI_API_KEY -> k <> OPENAI_BASE_URL ->
               environ (snd (configure (startup_world (Some "ghp_abc")))) !! k =
               environ (startup_world (Some "ghp_abc")) !! k) /\
    client (globals (snd (configure (startup_world (Some "ghp_abc"))))) =
      Some {| api_key := token;
              base_url := "https://models.github.ai/inference" |}.
Proof.
  apply (configure_writes_two_entries (startup_world (Some "ghp_abc"))).
  vm_compute. reflexivity.
Defined.

(** * The stream consumer *)

(** C1, amended.  For every non-empty sequence of fragments, each with a
    first choice, delivered by a stream that then closes, [consume]
    returns; [full_reply_content] is the concatenation, in arrival order,
    of the contents of the fragments (a fragment without content, or with
    an empty one, adds nothing); [collected_chunks] holds the fragments in
    arrival order; and one line per fragment has been printed, showing the
    delay of that fragment since [start_time] and its delta. *)
Theorem consume_full_text_and_log (w : World) (msgs : list Message)
    (chunks : list ChatCompletionChunk) :
  answers w msgs (yielding chunks Closed) ->
  chunks <> [] ->
  Forall has_choice chunks ->
  fst (consume msgs w) = Ok tt /\
  full_reply_content (globals (snd (consume msgs w))) =
    Some (concat_contents chunks) /\
  collected_chunks (globals (snd (consume msgs w))) = Some chunks /\
  exists lines,
    stdout (snd (consume msgs w)) =
      stdout w ++ lines ++
      [FullResponseReceivedAfter (last_elapsed w (length chunks));
       FullConversationReceived (concat_contents chunks)] /\
    length lines = length chunks /\
    map Some (shown_messages lines) = map first_delta chunks /\
    elapsed_times lines =
      map (fun i => last_elapsed w (S i)) (seq 0 (length chunks)).
Proof.
  intros Hw Hne Hch.
  pose proof (loop_result_yielding chunks Closed Hch) as Hr.
  pose proof (pulled_yielding chunks Closed Hch) as Hp.
  pose proof (accepted_yielding chunks Closed Hch) as Ha.
  pose proof (accepted_length_yielding chunks Closed Hch) as Hl.
  cbn in Hr, Hp, Ha, Hl. rewrite app_nil_r in Hp, Ha. rewrite Nat.add_0_r in Hl.
  destruct (consume_returns w msgs _ Hw Hr) as (Hok & Hout & Hfull).
  { rewrite Hp. exact Hne. }
  pose proof (cp_chunks _ _ _ _ (consume_leaves w msgs _ Hw)) as Hcc.
  rewrite Hp in Hout, Hcc.
  rewrite (join_contents_chunks chunks _ Ha) in Hout, Hfull.
  repeat split; auto.
  eexists. split; [exact Hout|].
  rewrite length_message_lines, shown_message_lines,
    elapsed_message_lines_from_start, Hl.
  auto.
Qed.

Lemma consume_full_text_and_log_witness :
  fst (consume short_question
         (later_world (yielding [role_fragment; two_fragment] Closed))) = Ok tt /\
  full_reply_content
    (globals (snd (consume short_question
         (later_world (yielding [role_fragment; two_fragment] Closed))))) =
    Some "Two".
Proof.
  pose proof (consume_full_text_and_log
                (later_world (yielding [role_fragment; two_fragment] Closed))
                short_question [role_fragment; two_fragment]) as H.
  destruct H as (Hok & Hfull & _).
  - exists stub_client, "m". repeat split; reflexivity.
  - discriminate.
  - repeat constructor; discriminate.
  - split; [exact Hok | exact Hfull].
Defined.

(** C1 as stated fails on two streams.  A fragment whose list of choices
    is empty stops the loop with [IndexError]; a stream that closes before
    its first fragment leaves [chunk_time] unbound, and line 209 raises
    [NameError].  In both runs no text is returned. *)
Lemma consume_full_text_counterexample :
  answers (stub_world (yielding [no_choices] Closed)) short_question
    (yielding [no_choices] Closed) /\
  fst (consume short_question (stub_world (yielding [no_choices] Closed))) =
    Raise IndexError /\
  full_reply_content
    (globals (snd (consume short_question
                     (stub_world (yielding [no_choices] Closed))))) = None /\
  answers (stub_world (yielding [] Closed)) short_question (yielding [] Closed) /\
  fst (consume short_question (stub_world (yielding [] Closed))) =
    Raise (NameError "chunk_time") /\
  full_reply_content
    (globals (snd (consume short_question (stub_world (yielding [] Closed))))) =
    None.
Proof.
  repeat split; try reflexivity.
  - exists stub_client, "m". repeat split; reflexivity.
  - exists stub_client, "m". repeat split; reflexivity.
Qed.

(** C6.  With the model ["m"], the question ["1+1?"] and a service that
    streams [{role: assistant}], [{content: "Two"}] and [{}], [consume]
    sends the request [{model: "m", messages, temperature: 0, stream: true}]
    and returns with [full_reply_content = "Two"], three chunks collected
    and three [MessageReceived] lines printed. *)
Theorem consume_answers_two (w : World) (c : Client) :
  client (globals w) = Some c ->
  GPT_MODEL (globals w) = Some "m" ->
  open_stream (service w) (length (issued w)) c
    {| model := "m";
       messages := [ {| role := user; content := "1+1?" |} ];
       temperature := 0;
       stream := true |} =
    inr (Next role_fragment (Next two_fragment (Next empty_fragment Closed))) ->
  fst (consume [ {| role := user; content := "1+1?" |} ] w) = Ok tt /\
  full_reply_content
    (globals (snd (consume [ {| role := user; content := "1+1?" |} ] w))) =
    Some "Two" /\
  collected_chunks
    (globals (snd (consume [ {| role := user; content := "1+1?" |} ] w))) =
    Some [role_fragment; two_fragment; empty_fragment] /\
  issued (snd (consume [ {| role := user; content := "1+1?" |} ] w)) =
    issued w ++
    [(c, {| model := "m";
            messages := [ {| role := user; content := "1+1?" |} ];
            temperature := 0;
            stream := true |})] /\
  stdout (snd (consume [ {| role := user; content := "1+1?" |} ] w)) =
    stdout w ++
    [MessageReceived (last_elapsed w 1)
       {| delta_role := Some assistant; delta_content := None |};
     MessageReceived (last_elapsed w 2)
       {| delta_role := None; delta_content := Some "Two" |};
     MessageReceived (last_elapsed w 3)
       {| delta_role := None; delta_content := None |};
     FullResponseReceivedAfter (last_elapsed w 3);
     FullConversationReceived "Two"].
Proof.
  intros Hc Hm Hs.
  set (msgs := [ {| role := user; content := "1+1?" |} ]) in *.
  set (s := Next role_fragment (Next two_fragment (Next empty_fragment Closed))) in *.
  assert (Hw : answers w msgs s) by (exists c, "m"; auto).
  destruct (consume_returns w msgs s Hw eq_refl) as (Hok & Hout & Hfull);
    [discriminate|].
  destruct (consume_leaves w msgs s Hw) as [C _ _ _ I _ _ _ _ _ _].
  destruct I as (c' & m' & Hc' & Hm' & I).
  assert (c' = c) as -> by congruence.
  assert (m' = "m") as -> by congruence.
  repeat split; auto.
  rewrite Hout. cbn. unfold last_elapsed.
  rewrite !Nat.add_succ_r, Nat.add_0_r. reflexivity.
Qed.

Lemma consume_answers_two_witness :
  fst (consume short_question
         (stub_world (yielding [role_fragment; two_fragment; empty_fragment] Closed))) =
    Ok tt /\
  full_reply_content
    (globals (snd (consume short_question
         (stub_world (yielding [role_fragment; two_fragment; empty_fragment] Closed))))) =
    Some "Two" /\
  length (stdout (snd (consume short_question
         (stub_world (yielding [role_fragment; two_fragment; empty_fragment] Closed))))) =
    5%nat.
Proof.
  pose proof (consume_answers_two
                (stub_world (yielding [role_fragment; two_fragment; empty_fragment] Closed))
                stub_client eq_refl eq_refl eq_refl) as (Hok & Hfull & _ & _ & Hout).
  split; [exact Hok|]. split; [exact Hfull|].
  unfold short_question. rewrite Hout. reflexivity.
Defined.

(** C4.  In every run of [consume] on an opened stream, whatever the
    stream does afterwards, [collected_chunks] is the sequence of chunks
    the service handed out during the run, in the order it handed them
    out; each line printed by the loop shows the delta of the chunk at its
    position in that log; and, with a clock that never goes back, the
    delays printed never decrease and none exceeds the final
    [chunk_time]. *)
Theorem consume_log_in_arrival_order (w : World) (msgs : list Message) (s : Stream) :
  monotone (clock w) ->
  answers w msgs s ->
  exists log new,
    collected_chunks (globals (snd (consume msgs w))) = Some log /\
    delivered (snd (consume msgs w)) = delivered w ++ log /\
    stdout (snd (consume msgs w)) = stdout w ++ new /\
    (forall i d, shown_messages new !! i = Some d ->
       exists chunk, log !! i = Some chunk /\ first_delta chunk = Some d) /\
    length (elapsed_times new) = length (shown_messages new) /\
    Sorted Z.le (elapsed_times new) /\
    (forall t, In t (elapsed_times new) ->
       exists last, chunk_time (globals (snd (consume msgs w))) = Some last /\
                    t <= last).
Proof.
  intros Hclk Hw.
  destruct (consume_leaves w msgs s Hw) as [C M D _ _ _ _ _ _ T O].
  destruct O as (tail & O & Htail).
  exists (pulled s), (message_lines (clock w) (clock w (reads w)) (S (reads w))
                        (accepted s) ++ tail).
  assert (Ht : elapsed_times tail = [] /\ shown_messages tail = [])
    by (destruct Htail as [->|(t & text & ->)]; split; reflexivity).
  destruct Ht as [Ht1 Ht2].
  rewrite elapsed_times_app, shown_messages_app, Ht1, Ht2, !app_nil_r.
  rewrite shown_message_lines.
  repeat split; auto.
  - intros i d Hi. apply accepted_lookup. exact Hi.
  - rewrite elapsed_message_lines, length_map, length_seq. reflexivity.
  - apply elapsed_message_lines_sorted. exact Hclk.
  - intros t Hin.
    pose proof (accepted_length_le s) as Hle.
    destruct (accepted s) as [|d ds] eqn:Ha; [destruct Hin|].
    destruct (pulled s) as [|p ps] eqn:Hp; [cbn in Hle; lia|].
    exists (last_elapsed w (length (p :: ps))). split; [exact T|].
    apply (elapsed_message_lines_bounds _ _ _ _ _ Hclk) in Hin.
    unfold last_elapsed.
    pose proof (Hclk (S (reads w) + length (d :: ds) - 1)%nat
                  (reads w + length (p :: ps))%nat ltac:(lia)).
    lia.
Qed.

Lemma consume_log_in_arrival_order_witness :
  exists log new,
    collected_chunks
      (globals (snd (consume short_question
         (later_world (yielding [role_fragment; no_choices] Closed))))) = Some log /\
    delivered (snd (consume short_question
         (later_world (yielding [role_fragment; no_choices] Closed)))) = [] ++ log /\
    stdout (snd (consume short_question
         (later_world (yielding [role_fragment; no_choices] Closed)))) =
      [FullConversationReceived "earlier"] ++ new /\
    Sorted Z.le (elapsed_times new).
Proof.
  destruct (consume_log_in_arrival_order
              (later_world (yielding [role_fragment; no_choices] Closed))
              short_question (yielding [role_fragment; no_choices] Closed))
    as (log & new & H1 & H2 & H3 & _ & _ & H4 & _).
  - intros i j Hij. cbn. lia.
  - exists stub_client, "m". repeat split; reflexivity.
  - exists log, new. repeat split; assumption.
Defined.

(** C5.  When, in a run of [consume] on an opened stream, the service
    handed out exactly two chunks and then signalled a failure, [consume]
    raises that very failure; the service received one request and no
    second one; [collected_chunks] holds the two chunks, and the two lines
    and the two deltas of these chunks are all the loop has recorded. *)
Theorem consume_propagates_failure_after_two (w : World) (msgs : list Message)
    (s : Stream) (c1 c2 : ChatCompletionChunk) (e : Exn) :
  answers w msgs s ->
  delivered (snd (consume msgs w)) = delivered w ++ [c1; c2] ->
  raised (snd (consume msgs w)) = raised w ++ [e] ->
  fst (consume msgs w) = Raise e /\
  length (issued (snd (consume msgs w))) = S (length (issued w)) /\
  collected_chunks (globals (snd (consume msgs w))) = Some [c1; c2] /\
  full_reply_content (globals (snd (consume msgs w))) =
    full_reply_content (globals w) /\
  exists d1 d2,
    first_delta c1 = Some d1 /\
    first_delta c2 = Some d2 /\
    collected_messages (globals (snd (consume msgs w))) = Some [d1; d2] /\
    stdout (snd (consume msgs w)) =
      stdout w ++ [MessageReceived (last_elapsed w 1) d1;
                   MessageReceived (last_elapsed w 2) d2].
Proof.
  intros Hw Hd Hr.
  destruct (consume_leaves w msgs s Hw) as [C M D X I _ _ _ _ _ _].
  rewrite D in Hd. apply app_inv_head in Hd.
  rewrite X in Hr. apply app_inv_head in Hr.
  destruct (signalled_failure s e Hr) as [Hres Ha].
  destruct (consume_raises w msgs s e Hw Hres) as (Hfst & Hout & Hfull).
  rewrite Hd in C, Ha. cbn in Ha.
  destruct (accepted s) as [|d1 [|d2 [|d3 ds]]] eqn:Hacc; try discriminate.
  cbn in Ha. injection Ha as Hd1 Hd2.
  destruct I as (c & m & _ & _ & I).
  repeat split; auto.
  - rewrite I, length_app. cbn. lia.
  - exists d1, d2. repeat split; auto.
    rewrite Hout. cbn. unfold last_elapsed.
    rewrite !Nat.add_succ_r, Nat.add_0_r. reflexivity.
Qed.

Lemma consume_propagates_failure_after_two_witness :
  fst (consume short_question
         (stub_world (yielding [role_fragment; two_fragment]
                        (Failed (TransportError "connection reset"))))) =
    Raise (TransportError "connection reset") /\
  collected_chunks
    (globals (snd (consume short_question
         (stub_world (yielding [role_fragment; two_fragment]
                        (Failed (TransportError "connection reset"))))))) =
    Some [role_fragment; two_fragment].
Proof.
  destruct (consume_propagates_failure_after_two
              (stub_world (yielding [role_fragment; two_fragment]
                             (Failed (TransportError "connection reset"))))
              short_question
              (yielding [role_fragment; two_fragment]
                 (Failed (TransportError "connection reset")))
              role_fragment two_fragment (TransportError "connection reset"))
    as (H1 & _ & H2 & _).
  - exists stub_client, "m". repeat split; reflexivity.
  - reflexivity.
  - reflexivity.
  - split; [exact H1 | exact H2].
Defined.




(** C10, amended.  The body takes the delta by indexing the first
    choice, with no guard.  When every fragment of the stream has a choice
    the indexing never fails: the deltas of all fragments are collected,
    and the run returns if the stream closes and raises the stream's own
    failure if it fails.  A fragment without choices stops the loop with
    [IndexError], and the service has signalled nothing; that fragment is
    already the last entry of [collected_chunks] and [chunk_time] holds its
    delay, but no delta is collected and no line is printed for it, and
    the fragments after it are not pulled. *)
Theorem consume_indexes_first_choice :
  (forall w msgs chunks,
     answers w msgs (yielding chunks Closed) ->
     Forall has_choice chunks -> chunks <> [] ->
     fst (consume msgs w) = Ok tt /\
     exists ds, collected_messages (globals (snd (consume msgs w))) = Some ds /\
                map Some ds = map first_delta chunks) /\
  (forall w msgs chunks e,
     answers w msgs (yielding chunks (Failed e)) ->
     Forall has_choice chunks ->
     fst (consume msgs w) = Raise e /\
     raised (snd (consume msgs w)) = raised w ++ [e] /\
     exists ds, collected_messages (globals (snd (consume msgs w))) = Some ds /\
                map Some ds = map first_delta chunks) /\
  (forall w msgs good bad rest,
     answers w msgs (yielding good (Next bad rest)) ->
     Forall has_choice good -> ~ has_choice bad ->
     fst (consume msgs w) = Raise IndexError /\
     raised (snd (consume msgs w)) = raised w /\
     collected_chunks (globals (snd (consume msgs w))) = Some (good ++ [bad]) /\
     chunk_time (globals (snd (consume msgs w))) =
       Some (last_elapsed w (length (good ++ [bad]))) /\
     delivered (snd (consume msgs w)) = delivered w ++ good ++ [bad] /\
     exists ds new,
       collected_messages (globals (snd (consume msgs w))) = Some ds /\
       map Some ds = map first_delta good /\
       stdout (snd (consume msgs w)) = stdout w ++ new /\
       shown_messages new = ds /\
       length new = length good).
Proof.
  split; [|split].
  - intros w msgs chunks Hw Hch Hne. split.
    + apply (consume_returns w msgs _ Hw).
      * rewrite loop_result_yielding by assumption. reflexivity.
      * rewrite pulled_yielding, app_nil_r by assumption. assumption.
    + eexists. split; [apply (cp_messages _ _ _ _ (consume_leaves w msgs _ Hw))|].
      rewrite accepted_yielding, app_nil_r by assumption. reflexivity.
  - intros w msgs chunks e Hw Hch. split; [|split].
    + apply (consume_raises w msgs _ e Hw).
      rewrite loop_result_yielding by assumption. reflexivity.
    + rewrite (cp_raised _ _ _ _ (consume_leaves w msgs _ Hw)).
      rewrite signalled_yielding by assumption. reflexivity.
    + eexists. split; [apply (cp_messages _ _ _ _ (consume_leaves w msgs _ Hw))|].
      rewrite accepted_yielding, app_nil_r by assumption. reflexivity.
  - intros w msgs good bad rest Hw Hg Hb.
    destruct (loop_stops_at_no_choice good bad rest Hg Hb) as (Hr & Hp & Ha & Hs).
    destruct (consume_raises w msgs _ IndexError Hw Hr) as (Hfst & Hout & _).
    destruct (consume_leaves w msgs _ Hw) as [C M D X _ _ _ _ _ T _].
    rewrite Hp in C, D, T. rewrite Hs, app_nil_r in X.
    assert (T' : chunk_time (globals (snd (consume msgs w))) =
                 Some (last_elapsed w (length (good ++ [bad]))))
      by (rewrite T; destruct good; reflexivity).
    repeat split; auto.
    eexists. eexists.
    split; [exact M|]. split; [exact Ha|]. split; [exact Hout|].
    split; [apply shown_message_lines|].
    rewrite length_message_lines.
    apply (f_equal (@length _)) in Ha. rewrite !length_map in Ha. exact Ha.
Qed.

Lemma consume_indexes_first_choice_witness :
  fst (consume short_question
         (stub_world (yielding [role_fragment; two_fragment] Closed))) = Ok tt /\
  fst (consume short_question
         (stub_world (yielding [role_fragment]
                        (Failed (TransportError "connection reset"))))) =
    Raise (TransportError "connection reset") /\
  fst (consume short_question
         (stub_world (yielding [role_fragment] (Next no_choices (Next two_fragment Closed))))) =
    Raise IndexError /\
  collected_chunks
    (globals (snd (consume short_question
         (stub_world (yielding [role_fragment] (Next no_choices (Next two_fragment Closed))))))) =
    Some ([role_fragment] ++ [no_choices]).
Proof.
  destruct consume_indexes_first_choice as (Ha & Hb & Hc).
  destruct (Ha (stub_world (yielding [role_fragment; two_fragment] Closed))
              short_question [role_fragment; two_fragment]) as (H1 & _).
  { exists stub_client, "m". repeat split; reflexivity. }
  { repeat constructor; discriminate. }
  { discriminate. }
  destruct (Hb (stub_world (yielding [role_fragment]
                              (Failed (TransportError "connection reset"))))
              short_question [role_fragment] (TransportError "connection reset"))
    as (H2 & _).
  { exists stub_client, "m". repeat split; reflexivity. }
  { repeat constructor; discriminate. }
  destruct (Hc (stub_world (yielding [role_fragment]
                              (Next no_choices (Next two_fragment Closed))))
              short_question [role_fragment] no_choices (Next two_fragment Closed))
    as (H3 & _ & H4 & _).
  { exists stub_client, "m". repeat split; reflexivity. }
  { repeat constructor; discriminate. }
  { intros H. apply H. reflexivity. }
  repeat split; assumption.
Defined.

(** C10 as stated fails where it says that a fragment without choices
    leaves no entry in the log: line 203 appends the fragment to
    [collected_chunks] before line 204 indexes it. *)
Lemma consume_no_choices_counterexample :
  answers (stub_world (Next no_choices Closed)) short_question
    (Next no_choices Closed) /\
  fst (consume short_question (stub_world (Next no_choices Closed))) =
    Raise IndexError /\
  collected_chunks
    (globals (snd (consume short_question (stub_world (Next no_choices Closed))))) =
    Some [no_choices] /\
  chunk_time
    (globals (snd (consume short_question (stub_world (Next no_choices Closed))))) =
    Some 1.
Proof.
  repeat split; try reflexivity.
  exists stub_client, "m". repeat split; reflexivity.
Qed.

(** * The blocking completion: cells 3 and 5 *)

(** When the service refuses the blocking request with a refusal the
    client does not retry, cell 3 lets the exception through: one request
    was sent, nothing is printed, and [response] keeps whatever an earlier
    cell bound it to. *)
Theorem cell_3_refusal_not_retried (w : World) (c : Client) (m : string) (e : Exn) :
  client (globals w) = Some c ->
  GPT_MODEL (globals w) = Some m ->
  complete (service w) (length (issued w)) c (blocking_request m count_to_100) =
    inl (e, false) ->
  fst (cell_3 w) = Raise e /\
  issued (snd (cell_3 w)) = issued w ++ [(c, blocking_request m count_to_100)] /\
  raised (snd (cell_3 w)) = raised w ++ [e] /\
  stdout (snd (cell_3 w)) = stdout w /\
  response (globals (snd (cell_3 w))) = response (globals w) /\
  response_time (globals (snd (cell_3 w))) = response_time (globals w).
Proof.
  intros Hc Hm He.
  unfold cell_3, mbind, M_bind, time_time, name, assign, modify, create.
  cbn. rewrite Hc. cbn. rewrite Hm. cbn.
  unfold blocking_request in He. rewrite He. cbn.
  repeat split; reflexivity.
Qed.

Lemma cell_3_refusal_not_retried_witness :
  fst (cell_3 (blocking_world (inl (TransportError "unauthorized", false)))) =
    Raise (TransportError "unauthorized") /\
  stdout (snd (cell_3 (blocking_world (inl (TransportError "unauthorized", false))))) =
    [].
Proof.
  destruct (cell_3_refusal_not_retried
              (blocking_world (inl (TransportError "unauthorized", false)))
              stub_client "m" (TransportError "unauthorized")
              eq_refl eq_refl eq_refl) as (H1 & _ & _ & H2 & _).
  split; [exact H1 | exact H2].
Defined.

(** Cell 3 on a request the service answers. *)
Lemma cell_3_completes w c m r :
  client (globals w) = Some c ->
  GPT_MODEL (globals w) = Some m ->
  complete (service w) (length (issued w)) c (blocking_request m count_to_100) =
    inr r ->
  fst (cell_3 w) = Ok tt /\
  issued (snd (cell_3 w)) = issued w ++ [(c, blocking_request m count_to_100)] /\
  stdout (snd (cell_3 w)) =
    stdout w ++ [FullResponseReceivedAfter (last_elapsed w 1);
                 FullResponseReceived r] /\
  response (globals (snd (cell_3 w))) = Some (Completed r) /\
  response_time (globals (snd (cell_3 w))) = Some (last_elapsed w 1) /\
  reply_content (globals (snd (cell_3 w))) = reply_content (globals w) /\
  client (globals (snd (cell_3 w))) = Some c /\
  GPT_MODEL (globals (snd (cell_3 w))) = Some m /\
  service (snd (cell_3 w)) = service w /\
  environ (snd (cell_3 w)) = environ w /\
  clock (snd (cell_3 w)) = clock w /\
  reads (snd (cell_3 w)) = S (S (reads w)) /\
  delivered (snd (cell_3 w)) = delivered w /\
  raised (snd (cell_3 w)) = raised w /\
  chunk_time (globals (snd (cell_3 w))) = chunk_time (globals w) /\
  collected_chunks (globals (snd (cell_3 w))) = collected_chunks (globals w) /\
  full_reply_content (globals (snd (cell_3 w))) = full_reply_content (globals w).
Proof.
  intros Hc Hm Hr.
  unfold cell_3, mbind, M_bind, time_time, name, assign, modify, create, print.
  cbn. rewrite Hc. cbn. rewrite Hm. cbn.
  unfold blocking_request in Hr. rewrite Hr. cbn.
  unfold last_elapsed. rewrite Nat.add_1_r, <- app_assoc.
  repeat split; auto.
Qed.

(** Cell 5 on a [response] bound to a completion with a candidate. *)
Lemma cell_5_extracts w r msg :
  response (globals w) = Some (Completed r) ->
  first_candidate r = Some msg ->
  cell_5 w =
  (Ok tt,
   with_stdout
     ((stdout w ++ [ExtractedReply msg]) ++
      [ExtractedContent (message_content msg)])
     (with_globals (bind_reply_content (message_content msg))
        (with_stdout (stdout w ++ [ExtractedReply msg]) w))).
Proof.
  unfold first_candidate. intros Hr Hm.
  destruct (choices r) as [|c cs] eqn:Hch; [discriminate|].
  injection Hm as <-.
  unfold cell_5, first_message, mbind, M_bind, name, assign, modify, print.
  rewrite Hr. cbn. rewrite Hch. cbn. rewrite Hr. cbn. rewrite Hch. reflexivity.
Qed.

(** Cell 5 on a [response] bound to a completion without candidates. *)
Lemma cell_5_no_candidate w r :
  response (globals w) = Some (Completed r) ->
  first_candidate r = None ->
  cell_5 w = (Raise IndexError, w).
Proof.
  unfold first_candidate. intros Hr Hm.
  destruct (choices r) as [|c cs] eqn:Hch; [|discriminate].
  unfold cell_5, first_message, mbind, M_bind, name.
  rewrite Hr. cbn. rewrite Hch. reflexivity.
Qed.



(** The same when the completion has no candidate: cell 3 prints its two
    lines, then the indexing of cell 5 raises [IndexError] before anything
    else is printed, and [reply_content] is left as it was. *)
Theorem blocking_completion_without_candidate (w : World) (c : Client)
    (m : string) (r : ChatCompletion) :
  client (globals w) = Some c ->
  GPT_MODEL (globals w) = Some m ->
  complete (service w) (length (issued w)) c (blocking_request m count_to_100) =
    inr r ->
  choices r = [] ->
  fst ((cell_3 ;; cell_5) w) = Raise IndexError /\
  stdout (snd ((cell_3 ;; cell_5) w)) =
    stdout w ++ [FullResponseReceivedAfter (last_elapsed w 1);
                 FullResponseReceived r] /\
  reply_content (globals (snd ((cell_3 ;; cell_5) w))) =
    reply_content (globals w).
Proof.
  intros Hc Hm Hr Hch.
  destruct (cell_3_completes w c m r Hc Hm Hr)
    as (H1 & _ & H3 & H4 & _ & H6 & _).
  unfold mbind, M_bind.
  destruct (cell_3 w) as [[[]|e] w3]; cbn in H1, H3, H4, H6; [|discriminate].
  rewrite (cell_5_no_candidate w3 r H4) by (unfold first_candidate; rewrite Hch; reflexivity).
  cbn. auto.
Qed.

Lemma blocking_completion_without_candidate_witness :
  fst ((cell_3 ;; cell_5) (blocking_world (inr no_candidates))) = Raise IndexError.
Proof.
  apply (blocking_completion_without_candidate
           (blocking_world (inr no_candidates)) stub_client "m" no_candidates
           eq_refl eq_refl eq_refl eq_refl).
Defined.

Lemma cell_3_world w c m r :
  client (globals w) = Some c ->
  GPT_MODEL (globals w) = Some m ->
  complete (service w) (length (issued w)) c (blocking_request m count_to_100) =
    inr r ->
  cell_3 w = (Ok tt, after_cell_3 c m r w).
Proof.
  intros Hc Hm Hr.
  unfold cell_3, mbind, M_bind, time_time, name, assign, modify, create, print.
  cbn. rewrite Hc. cbn. rewrite Hm. cbn.
  unfold blocking_request in Hr. rewrite Hr. cbn.
  reflexivity.
Qed.

(** * Cell 7: the stream that is only printed *)

Lemma for_chunk_in_print s : forall w,
  for_chunk_in s (fun chunk => print (PrintedChunk chunk)) w =
  (stream_end s, after_printing s w).
Proof.
  induction s as [|e|chunk rest IH]; intros w.
  - destruct w. unfold after_printing. cbn. rewrite !app_nil_r. reflexivity.
  - destruct w. unfold after_printing. cbn. rewrite !app_nil_r. reflexivity.
  - rewrite for_chunk_in_next.
    unfold print at 1, modify at 1. rewrite IH.
    destruct w. unfold after_printing. cbn. rewrite <- !app_assoc. reflexivity.
Qed.

Lemma cell_7_world w c m s :
  client (globals w) = Some c ->
  GPT_MODEL (globals w) = Some m ->
  open_stream (service w) (length (issued w)) c (stream_request m one_plus_one) =
    inr s ->
  cell_7 w = (stream_end s, after_cell_7 c m s w).
Proof.
  intros Hc Hm Hs.
  unfold cell_7, mbind, M_bind, name, assign, modify, create_stream.
  rewrite Hc. cbn. rewrite Hm. cbn.
  unfold stream_request in Hs. rewrite Hs. cbn.
  rewrite for_chunk_in_print. reflexivity.
Qed.



(** * Cell 10 at its edges and the cells run after it *)

(** The loop of cell 10 leaves the names of cells 3 and 5 alone. *)
Lemma for_chunk_in_collect_keeps s : forall w t0 cs ms,
  start_time (globals w) = Some t0 ->
  collected_chunks (globals w) = Some cs ->
  collected_messages (globals w) = Some ms ->
  reply_content (globals (snd (for_chunk_in s collect w))) =
    reply_content (globals w) /\
  response_time (globals (snd (for_chunk_in s collect w))) =
    response_time (globals w).
Proof.
  induction s as [|e|chunk rest IH]; intros w t0 cs ms Ht Hc Hm.
  - cbn. auto.
  - cbn. auto.
  - rewrite for_chunk_in_next.
    destruct (first_delta chunk) as [d|] eqn:Hd.
    + erewrite collect_accepts by (cbn; eauto).
      match goal with |- context [for_chunk_in rest collect ?w1] =>
        destruct (IH w1 t0 (cs ++ [chunk]) (ms ++ [d]) Ht eq_refl eq_refl)
          as [H1 H2]
      end.
      rewrite H1, H2. cbn. auto.
    + erewrite collect_rejects by (cbn; eauto).
      cbn. auto.
Qed.

(** What a run of [consume] on an opened stream does to the names it
    shares with the other cells. *)
Lemma consume_keeps w msgs s :
  answers w msgs s ->
  response (globals (snd (consume msgs w))) = Some Streamed /\
  reply_content (globals (snd (consume msgs w))) = reply_content (globals w) /\
  response_time (globals (snd (consume msgs w))) = response_time (globals w) /\
  client (globals (snd (consume msgs w))) = client (globals w) /\
  GPT_MODEL (globals (snd (consume msgs w))) = GPT_MODEL (globals w).
Proof.
  intros (c & m & Hc & Hm & Hs).
  rewrite (consume_enters w msgs c m s Hc Hm Hs).
  pose proof (for_chunk_in_collect s (loop_entry c m msgs w)
                (clock w (reads w)) [] [] eq_refl eq_refl eq_refl) as P.
  pose proof (for_chunk_in_collect_keeps s (loop_entry c m msgs w)
                (clock w (reads w)) [] [] eq_refl eq_refl eq_refl) as [K1 K2].
  destruct (for_chunk_in s collect (loop_entry c m msgs w)) as [[[]|e'] w1];
    destruct P as [R C Ms D X O Rd Ct E K Sv I St Cl G Rs F];
    cbn in Ms, Cl, G, Rs, K1, K2.
  - destruct (chunk_time (globals w1)) as [t|] eqn:Ht.
    + rewrite (report_bound w1 t _ Ht Ms). cbn. auto.
    + rewrite (report_unbound w1 Ht). cbn. auto.
  - cbn. auto.
Qed.

(** Cell 5 run again after cell 10: [response] is now the stream object,
    which has no [choices], so the cell raises [AttributeError] and prints
    nothing, whatever the stream delivered. *)
Theorem cell_5_after_consume (w : World) (msgs : list Message) (s : Stream) :
  answers w msgs s ->
  cell_5 (snd (consume msgs w)) = (Raise AttributeError, snd (consume msgs w)).
Proof.
  intros Hw. destruct (consume_keeps w msgs s Hw) as [Hr _].
  unfold cell_5, first_message, mbind, M_bind, name. rewrite Hr. reflexivity.
Qed.

Lemma cell_5_after_consume_witness :
  fst (cell_5 (snd (consume short_question
                      (stub_world (yielding [two_fragment] Closed))))) =
    Raise AttributeError.
Proof.
  rewrite (cell_5_after_consume (stub_world (yielding [two_fragment] Closed))
             short_question (yielding [two_fragment] Closed)).
  - reflexivity.
  - exists stub_client, "m". repeat split; reflexivity.
Defined.

Lemma last_pulled_nonempty s :
  pulled s <> [] -> exists chunk, last (pulled s) = Some chunk.
Proof.
  intros H. destruct (last (pulled s)) as [chunk|] eqn:Hl; [eauto|].
  apply last_None in Hl. contradiction.
Qed.

(** Cell 11 after cell 10, on a stream that yielded at least one chunk:
    it dumps the last chunk the service handed out and does not raise,
    also when cell 10 itself ended in an exception. *)
Theorem cell_11_dumps_last_chunk (w : World) (msgs : list Message) (s : Stream) :
  answers w msgs s ->
  pulled s <> [] ->
  exists chunk,
    last (pulled s) = Some chunk /\
    last (delivered (snd (consume msgs w))) = Some chunk /\
    cell_11 (snd (consume msgs w)) =
      (Ok tt,
       with_stdout (stdout (snd (consume msgs w)) ++ [JsonDump chunk])
         (snd (consume msgs w))).
Proof.
  intros Hw Hp.
  destruct (last_pulled_nonempty s Hp) as [chunk Hl].
  destruct (consume_leaves w msgs s Hw) as [C _ D _ _ _ _ _ _ _ _].
  exists chunk. split; [exact Hl|]. split.
  - rewrite D, last_app, Hl. reflexivity.
  - unfold cell_11, mbind, M_bind, name, print, modify.
    rewrite C. cbn. rewrite Hl. reflexivity.
Qed.

Lemma cell_11_dumps_last_chunk_witness :
  exists chunk,
    last (pulled (yielding [role_fragment] (Next no_choices Closed))) = Some chunk /\
    last (delivered (snd (consume short_question
            (stub_world (yielding [role_fragment] (Next no_choices Closed)))))) =
      Some chunk /\
    cell_11 (snd (consume short_question
            (stub_world (yielding [role_fragment] (Next no_choices Closed))))) =
      (Ok tt,
       with_stdout
         (stdout (snd (consume short_question
            (stub_world (yielding [role_fragment] (Next no_choices Closed))))) ++
          [JsonDump chunk])
         (snd (consume short_question
            (stub_world (yielding [role_fragment] (Next no_choices Closed)))))).
Proof.
  apply (cell_11_dumps_last_chunk
           (stub_world (yielding [role_fragment] (Next no_choices Closed)))
           short_question (yielding [role_fragment] (Next no_choices Closed))).
  - exists stub_client, "m". repeat split; reflexivity.
  - discriminate.
Defined.

(** Cell 11 when cell 10 pulled nothing, because the stream closed or
    failed before its first chunk: [collected_chunks] is empty and
    [collected_chunks[-1]] raises [IndexError]. *)
Theorem cell_11_nothing_collected (w : World) (msgs : list Message) (s : Stream) :
  answers w msgs s ->
  pulled s = [] ->
  cell_11 (snd (consume msgs w)) = (Raise IndexError, snd (consume msgs w)).
Proof.
  intros Hw Hp.
  destruct (consume_leaves w msgs s Hw) as [C _ _ _ _ _ _ _ _ _ _].
  unfold cell_11, mbind, M_bind, name. rewrite C, Hp. reflexivity.
Qed.

Lemma cell_11_nothing_collected_witness :
  fst (cell_11 (snd (consume short_question
                       (stub_world (Failed (TransportError "connection reset")))))) =
    Raise IndexError.
Proof.
  rewrite (cell_11_nothing_collected
             (stub_world (Failed (TransportError "connection reset")))
             short_question (Failed (TransportError "connection reset"))).
  - reflexivity.
  - exists stub_client, "m". repeat split; reflexivity.
  - reflexivity.
Defined.

(** Cell 10 when the service refuses the request at submission with a
    refusal the client does not retry: the exception goes up as it is,
    after one request; nothing is printed, and the chunks, the deltas, the
    delay and the text of an earlier run stay bound, since lines 198 and
    199 are not reached. *)
Theorem consume_refusal_not_retried (w : World) (msgs : list Message)
    (c : Client) (m : string) (e : Exn) :
  client (globals w) = Some c ->
  GPT_MODEL (globals w) = Some m ->
  open_stream (service w) (length (issued w)) c (stream_request m msgs) =
    inl (e, false) ->
  fst (consume msgs w) = Raise e /\
  issued (snd (consume msgs w)) = issued w ++ [(c, stream_request m msgs)] /\
  raised (snd (consume msgs w)) = raised w ++ [e] /\
  delivered (snd (consume msgs w)) = delivered w /\
  stdout (snd (consume msgs w)) = stdout w /\
  collected_chunks (globals (snd (consume msgs w))) = collected_chunks (globals w) /\
  collected_messages (globals (snd (consume msgs w))) =
    collected_messages (globals w) /\
  chunk_time (globals (snd (consume msgs w))) = chunk_time (globals w) /\
  full_reply_content (globals (snd (consume msgs w))) =
    full_reply_content (globals w) /\
  response (globals (snd (consume msgs w))) = response (globals w).
Proof.
  intros Hc Hm He.
  unfold consume, mbind, M_bind, time_time, name, assign, modify, create_stream.
  cbn. rewrite Hc. cbn. rewrite Hm. cbn.
  unfold stream_request in He. rewrite He. cbn.
  repeat split; reflexivity.
Qed.

Lemma consume_refusal_not_retried_witness :
  fst (consume short_question
         (rerun_world (refusing (TransportError "unauthorized") false))) =
    Raise (TransportError "unauthorized") /\
  collected_chunks
    (globals (snd (consume short_question
                     (rerun_world (refusing (TransportError "unauthorized") false))))) =
    Some [fragment None (Some "earlier")] /\
  full_reply_content
    (globals (snd (consume short_question
                     (rerun_world (refusing (TransportError "unauthorized") false))))) =
    Some "earlier".
Proof.
  destruct (consume_refusal_not_retried
              (rerun_world (refusing (TransportError "unauthorized") false))
              short_question stub_client "m" (TransportError "unauthorized")
              eq_refl eq_refl eq_refl)
    as (H1 & _ & _ & _ & _ & H2 & _ & _ & H3 & _).
  split; [exact H1|]. split; [rewrite H2 | rewrite H3]; reflexivity.
Defined.

(** Cell 10 run again on a stream that closes before its first chunk:
    the loop body never runs, so line 209 prints the delay left by the
    earlier run, and the text is empty. *)
Theorem consume_reports_stale_delay (w : World) (msgs : list Message) (t : Z) :
  answers w msgs Closed ->
  chunk_time (globals w) = Some t ->
  fst (consume msgs w) = Ok tt /\
  stdout (snd (consume msgs w)) =
    stdout w ++ [FullResponseReceivedAfter t; FullConversationReceived ""] /\
  full_reply_content (globals (snd (consume msgs w))) = Some "" /\
  collected_chunks (globals (snd (consume msgs w))) = Some [] /\
  chunk_time (globals (snd (consume msgs w))) = Some t.
Proof.
  intros Hw Ht.
  pose proof (consume_closed_at_once w msgs Hw) as Hr. rewrite Ht in Hr.
  pose proof (consume_ok_text w msgs Closed Hw Hr) as Hf.
  destruct (consume_leaves w msgs Closed Hw) as [C _ _ _ _ _ _ _ _ T O].
  cbn in C, T, O. rewrite Ht in T.
  repeat split; auto.
  destruct Hw as (c & m & Hc & Hm & Hs).
  rewrite (consume_enters w msgs c m Closed Hc Hm Hs).
  change (stdout (snd (report (loop_entry c m msgs w))) =
          stdout w ++ [FullResponseReceivedAfter t; FullConversationReceived ""]).
  rewrite (report_bound (loop_entry c m msgs w) t [] Ht eq_refl). cbn.
  rewrite <- app_assoc. reflexivity.
Qed.

Lemma consume_reports_stale_delay_witness :
  stdout (snd (consume short_question (rerun_world (stub Closed)))) =
    [FullConversationReceived "earlier";
     FullResponseReceivedAfter 42; FullConversationReceived ""].
Proof.
  destruct (consume_reports_stale_delay (rerun_world (stub Closed))
              short_question 42) as (_ & H & _).
  - exists stub_client, "m". repeat split; reflexivity.
  - reflexivity.
  - rewrite H. reflexivity.
Defined.

(** * Cell 1 again, and the cells that depend on it *)

(** The three ways the configuration step can end.  The check of line 46
    fails and nothing is written; or both entries are written and
    [GPT_MODEL] is bound, and then either the client is built from the
    token and the endpoint, or [OpenAI()] raises and [client] stays as it
    was.  The step is not undone when the constructor raises. *)
Theorem configure_outcomes (w : World) :
  configure w = (Raise (ValueError "GITHUB_TOKEN is not set"), w) \/
  exists token,
    environ w !! GITHUB_TOKEN = Some token /\ token <> "" /\
    environ (snd (configure w)) =
      <[OPENAI_BASE_URL := "https://models.github.ai/inference"]>
        (<[OPENAI_API_KEY := token]> (environ w)) /\
    GPT_MODEL (globals (snd (configure w))) = Some "openai/gpt-4o-mini" /\
    ((fst (configure w) = Ok tt /\
      client (globals (snd (configure w))) =
        Some {| api_key := token;
                base_url := "https://models.github.ai/inference" |}) \/
     (exists e,
        fst (configure w) = Raise e /\
        client (globals (snd (configure w))) = client (globals w))).
Proof.
  destruct (truthy (environ w !! GITHUB_TOKEN)) eqn:Ht.
  - right. apply truthy_true in Ht as (token & Hv & Hne).
    exists token. split; [exact Hv|]. split; [exact Hne|].
    destruct (http_client w
                (<[OPENAI_BASE_URL := endpoint]>
                   (<[OPENAI_API_KEY := token]> (environ w)))) as [e|] eqn:Hh.
    + rewrite (configure_constructor_raises w token e Hv Hne Hh). cbn.
      split; [reflexivity|]. split; [reflexivity|]. right. exists e. auto.
    + rewrite (configure_accepts w token Hv Hne Hh). cbn.
      split; [reflexivity|]. split; [reflexivity|]. left. auto.
  - left. apply configure_rejects. exact Ht.
Qed.

Lemma written_twice (token : string) (env : gmap string string) :
  <[OPENAI_BASE_URL := endpoint]>
    (<[OPENAI_API_KEY := token]>
       (<[OPENAI_BASE_URL := endpoint]> (<[OPENAI_API_KEY := token]> env))) =
  <[OPENAI_BASE_URL := endpoint]> (<[OPENAI_API_KEY := token]> env).
Proof.
  apply map_eq. intros k.
  destruct (decide (k = OPENAI_BASE_URL)) as [->|Hu].
  - rewrite !lookup_insert_eq. reflexivity.
  - rewrite !(lookup_insert_ne _ OPENAI_BASE_URL) by congruence.
    destruct (decide (k = OPENAI_API_KEY)) as [->|Hk].
    + rewrite !lookup_insert_eq. reflexivity.
    + rewrite !(lookup_insert_ne _ OPENAI_API_KEY) by congruence.
      rewrite !(lookup_insert_ne _ OPENAI_BASE_URL) by congruence.
      rewrite !(lookup_insert_ne _ OPENAI_API_KEY) by congruence.
      reflexivity.
Qed.

Lemma world_ext (w1 w2 : World) :
  environ w1 = environ w2 -> http_client w1 = http_client w2 ->
  clock w1 = clock w2 -> reads w1 = reads w2 ->
  stdout w1 = stdout w2 -> service w1 = service w2 -> issued w1 = issued w2 ->
  delivered w1 = delivered w2 -> raised w1 = raised w2 ->
  globals w1 = globals w2 -> w1 = w2.
Proof. destruct w1, w2. cbn. intros. subst. reflexivity. Qed.

(** Running the configuration step a second time changes nothing: the
    same two entries are written with the same values and the same client
    is built. *)
Theorem configure_twice (w : World) :
  fst (configure w) = Ok tt ->
  configure (snd (configure w)) = (Ok tt, snd (configure w)).
Proof.
  intros H. apply configure_succeeds_iff in H as (token & Hv & Hne & Hh).
  rewrite (configure_accepts w token Hv Hne Hh). cbn [snd].
  set (W := with_globals (bind_client {| api_key := token; base_url := endpoint |})
              (with_globals (bind_GPT_MODEL "openai/gpt-4o-mini")
                 (with_environ (insert OPENAI_BASE_URL endpoint)
                    (with_environ (insert OPENAI_API_KEY token) w)))).
  assert (HW : environ W !! GITHUB_TOKEN = Some token)
    by (cbn; rewrite !lookup_insert_ne by discriminate; exact Hv).
  assert (HhW : http_client W
                  (<[OPENAI_BASE_URL := endpoint]>
                     (<[OPENAI_API_KEY := token]> (environ W))) = None)
    by (cbn; rewrite written_twice; exact Hh).
  rewrite (configure_accepts W token HW Hne HhW). f_equal.
  apply world_ext; try reflexivity.
  cbn. apply written_twice.
Qed.

Lemma configure_twice_witness :
  configure (snd (configure (startup_world (Some "ghp_abc")))) =
    (Ok tt, snd (configure (startup_world (Some "ghp_abc")))).
Proof.
  apply (configure_twice (startup_world (Some "ghp_abc"))).
  vm_compute. reflexivity.
Defined.



(** With a clock that never goes back, no line of the loop shows a
    negative delay. *)
Theorem consume_delays_not_negative (w : World) (msgs : list Message) (s : Stream) :
  monotone (clock w) ->
  answers w msgs s ->
  exists new,
    stdout (snd (consume msgs w)) = stdout w ++ new /\
    Forall (fun t => 0 <= t) (elapsed_times new).
Proof.
  intros Hclk Hw.
  destruct (consume_leaves w msgs s Hw) as [_ _ _ _ _ _ _ _ _ _ O].
  destruct O as (tail & O & Htail).
  eexists. split; [exact O|].
  rewrite elapsed_times_app.
  replace (elapsed_times tail) with (@nil Z)
    by (destruct Htail as [->|(t & text & ->)]; reflexivity).
  rewrite app_nil_r. apply Forall_forall. intros t Hin.
  apply list_elem_of_In in Hin.
  apply (elapsed_message_lines_bounds _ _ _ _ _ Hclk) in Hin.
  pose proof (Hclk (reads w) (S (reads w)) ltac:(lia)). lia.
Qed.

Lemma consume_delays_not_negative_witness :
  exists new,
    stdout (snd (consume short_question
                   (later_world (yielding [role_fragment; two_fragment] Closed)))) =
      [FullConversationReceived "earlier"] ++ new /\
    Forall (fun t => 0 <= t) (elapsed_times new).
Proof.
  apply (consume_delays_not_negative
           (later_world (yielding [role_fragment; two_fragment] Closed))
           short_question (yielding [role_fragment; two_fragment] Closed)).
  - intros i j Hij. cbn. lia.
  - exists stub_client, "m". repeat split; reflexivity.
Defined.

(** Cell 10 after a configuration step that did not complete, in a kernel
    where [client] was not bound before: the clock is read and
    [start_time] bound, then line 188 raises [NameError] for [client]; no
    request is sent and nothing is printed. *)
Theorem consume_after_failed_configuration (w : World) (msgs : list Message) :
  client (globals w) = None ->
  fst (configure w) <> Ok tt ->
  fst (consume msgs (snd (configure w))) = Raise (NameError "client") /\
  issued (snd (consume msgs (snd (configure w)))) = issued w /\
  stdout (snd (consume msgs (snd (configure w)))) = stdout w /\
  start_time (globals (snd (consume msgs (snd (configure w))))) =
    Some (clock w (reads w)).
Proof.
  intros Hc Hfail.
  assert (H : client (globals (snd (configure w))) = None /\
              issued (snd (configure w)) = issued w /\
              stdout (snd (configure w)) = stdout w /\
              clock (snd (configure w)) = clock w /\
              reads (snd (configure w)) = reads w).
  { destruct (truthy (environ w !! GITHUB_TOKEN)) eqn:Ht.
    - apply truthy_true in Ht as (token & Hv & Hne).
      destruct (http_client w
                  (<[OPENAI_BASE_URL := endpoint]>
                     (<[OPENAI_API_KEY := token]> (environ w)))) as [e|] eqn:Hh.
      + rewrite (configure_constructor_raises w token e Hv Hne Hh). cbn. auto.
      + destruct Hfail. rewrite (configure_accepts w token Hv Hne Hh). reflexivity.
    - rewrite (configure_rejects w Ht). cbn. auto. }
  destruct H as (Hc' & Hi & Ho & Hk & Hr).
  unfold consume, mbind, M_bind, time_time, name, assign, modify.
  cbn. rewrite Hc'. cbn. rewrite Hk, Hr. auto.
Qed.

Lemma consume_after_failed_configuration_witness :
  fst (consume count_to_100 (snd (configure (startup_world None)))) =
    Raise (NameError "client") /\
  issued (snd (consume count_to_100 (snd (configure (startup_world None))))) = [].
Proof.
  destruct (consume_after_failed_configuration (startup_world None) count_to_100)
    as (H1 & H2 & _).
  - reflexivity.
  - vm_compute. discriminate.
  - split; [exact H1 | exact H2].
Defined.

(** * The notebook from top to bottom *)

Lemma bind_ok {A B} (c : M A) (k : A -> M B) w a w' :
  c w = (Ok a, w') -> (c ≫= k) w = k a w'.
Proof. intros H. unfold mbind, M_bind. rewrite H. reflexivity. Qed.

Lemma bind_raise {A B} (c : M A) (k : A -> M B) w e w' :
  c w = (Raise e, w') -> (c ≫= k) w = (Raise e, w').
Proof. intros H. unfold mbind, M_bind. rewrite H. reflexivity. Qed.

(** Cell 1 when it completes. *)
Lemma cell_1_world load_dotenv w token :
  fst (cell_1 load_dotenv w) = Ok tt ->
  load_dotenv (environ w) !! GITHUB_TOKEN = Some token ->
  cell_1 load_dotenv w =
  (Ok tt,
   with_globals (bind_client (github_client token))
     (with_globals (bind_GPT_MODEL gpt_4o_mini)
       (with_environ (insert OPENAI_BASE_URL endpoint)
         (with_environ (insert OPENAI_API_KEY token)
           (with_environ load_dotenv w))))).
Proof.
  unfold cell_1. intros Hok Hv.
  rewrite (bind_ok _ _ w tt (with_environ load_dotenv w)) in Hok by reflexivity.
  rewrite (bind_ok _ _ w tt (with_environ load_dotenv w)) by reflexivity.
  apply configure_succeeds_iff in Hok as (token' & Hv' & Hne & Hh).
  cbn in Hv'. assert (token' = token) as -> by congruence.
  apply configure_accepts; assumption.
Qed.

Lemma cell_3_refused w c m e :
  client (globals w) = Some c ->
  GPT_MODEL (globals w) = Some m ->
  complete (service w) (length (issued w)) c (blocking_request m count_to_100) =
    inl (e, false) ->
  cell_3 w =
  (Raise e,
   with_raised (raised w ++ [e])
     (with_issued (issued w ++ [(c, blocking_request m count_to_100)])
       (with_globals (bind_start_time (clock w (reads w)))
         (with_reads (S (reads w)) w)))).
Proof.
  intros Hc Hm He.
  unfold cell_3, mbind, M_bind, time_time, name, assign, modify, create.
  cbn. rewrite Hc. cbn. rewrite Hm. cbn.
  unfold blocking_request in He. rewrite He. reflexivity.
Qed.

(** A run of the whole notebook in which cell 1 completes, the service
    answers all three requests, the blocking answer has a candidate, the
    first stream closes and the second yields at least one chunk, each
    with a choice, before it closes.  The run completes; exactly three requests were sent, in this
    order, all with the token as key, the GitHub endpoint, the model
    ["openai/gpt-4o-mini"] and temperature 0; [reply_content] is the content
    of the candidate, [full_reply_content] the concatenation of the
    contents of the second stream, and the last line printed is the dump
    of its last chunk. *)
Theorem notebook_completes load_dotenv (w : World) (token : string)
    (r : ChatCompletion) (msg : ChatCompletionMessage) (s7 : Stream)
    (chunks : list ChatCompletionChunk) :
  fst (cell_1 load_dotenv w) = Ok tt ->
  load_dotenv (environ w) !! GITHUB_TOKEN = Some token ->
  complete (service w) (length (issued w)) (github_client token)
    (blocking_request gpt_4o_mini count_to_100) = inr r ->
  first_candidate r = Some msg ->
  open_stream (service w) (S (length (issued w))) (github_client token)
    (stream_request gpt_4o_mini one_plus_one) = inr s7 ->
  stream_end s7 = Ok tt ->
  open_stream (service w) (S (S (length (issued w)))) (github_client token)
    (stream_request gpt_4o_mini count_to_100) = inr (yielding chunks Closed) ->
  chunks <> [] ->
  Forall has_choice chunks ->
  fst (notebook load_dotenv w) = Ok tt /\
  issued (snd (notebook load_dotenv w)) =
    issued w ++
    [(github_client token, blocking_request gpt_4o_mini count_to_100);
     (github_client token, stream_request gpt_4o_mini one_plus_one);
     (github_client token, stream_request gpt_4o_mini count_to_100)] /\
  delivered (snd (notebook load_dotenv w)) =
    delivered w ++ every_chunk s7 ++ chunks /\
  reply_content (globals (snd (notebook load_dotenv w))) =
    Some (message_content msg) /\
  full_reply_content (globals (snd (notebook load_dotenv w))) =
    Some (concat_contents chunks) /\
  exists chunk,
    last chunks = Some chunk /\
    last (stdout (snd (notebook load_dotenv w))) = Some (JsonDump chunk).
Proof.
  intros Hcell Hv Hr Hmsg H7 He7 H10 Hnil Hch.
  unfold notebook.
  rewrite (bind_ok _ _ _ _ _ (cell_1_world load_dotenv w token Hcell Hv)).
  match goal with |- context [(cell_3 ≫= _) ?w1] => set (W1 := w1) end.
  rewrite (bind_ok _ _ _ _ _
             (cell_3_world W1 (github_client token) gpt_4o_mini r
                eq_refl eq_refl Hr)).
  set (W3 := after_cell_3 (github_client token) gpt_4o_mini r W1).
  rewrite (bind_ok _ _ _ _ _ (cell_5_extracts W3 r msg eq_refl Hmsg)).
  match goal with |- context [(cell_7 ≫= _) ?w5] => set (W5 := w5) end.
  assert (H7' : open_stream (service W5) (length (issued W5))
                  (github_client token)
                  (stream_request gpt_4o_mini one_plus_one) = inr s7).
  { cbn. rewrite length_app, Nat.add_1_r. exact H7. }
  pose proof (cell_7_world W5 (github_client token) gpt_4o_mini s7
                eq_refl eq_refl H7') as E7.
  rewrite He7 in E7. rewrite (bind_ok _ _ _ _ _ E7).
  set (W7 := after_cell_7 (github_client token) gpt_4o_mini s7 W5).
  assert (Hw : answers W7 count_to_100 (yielding chunks Closed)).
  { exists (github_client token), gpt_4o_mini. repeat split.
    cbn. rewrite !length_app, !Nat.add_1_r. exact H10. }
  pose proof (loop_result_yielding chunks Closed Hch) as Hres.
  pose proof (pulled_yielding chunks Closed Hch) as Hp.
  pose proof (accepted_yielding chunks Closed Hch) as Ha.
  cbn in Hres, Hp, Ha. rewrite app_nil_r in Hp, Ha.
  destruct (consume_returns W7 count_to_100 _ Hw Hres) as (Hok & Hout & Hfull).
  { rewrite Hp. exact Hnil. }
  destruct (consume_leaves W7 count_to_100 _ Hw) as [C _ D _ I _ _ _ _ _ _].
  destruct (consume_keeps W7 count_to_100 _ Hw) as (_ & Krc & _).
  destruct I as (c & m & Hc & Hm & I).
  cbn in Hc, Hm. injection Hc as <-. injection Hm as <-.
  rewrite Hp in C, D.
  rewrite (join_contents_chunks chunks _ Ha) in Hfull.
  assert (Hl : exists chunk, last chunks = Some chunk).
  { destruct (last chunks) as [chunk|] eqn:Hl; [eauto|].
    apply last_None in Hl. contradiction. }
  destruct Hl as [chunk Hl].
  unfold cell_10.
  destruct (consume count_to_100 W7) as [r10 W10] eqn:E10.
  cbn in Hok, Hout, Hfull, C, D, I, Krc. subst r10.
  rewrite (bind_ok _ _ _ _ _ E10).
  unfold cell_11, mbind, M_bind, name, print, modify.
  rewrite C. cbn. rewrite Hl. cbn.
  repeat split.
  - rewrite I. cbn. rewrite <- !app_assoc. reflexivity.
  - rewrite D. cbn. rewrite <- !app_assoc. reflexivity.
  - rewrite Krc. reflexivity.
  - exact Hfull.
  - exists chunk. split; [reflexivity|]. apply last_snoc.
Qed.

Lemma notebook_completes_witness :
  fst (notebook (fun env => env)
         (notebook_world "ghp_abc"
            (notebook_stub (inr counted)
               (yielding [role_fragment; two_fragment; empty_fragment] Closed)
               (yielding [role_fragment; two_fragment] Closed)))) = Ok tt /\
  length (issued (snd (notebook (fun env => env)
         (notebook_world "ghp_abc"
            (notebook_stub (inr counted)
               (yielding [role_fragment; two_fragment; empty_fragment] Closed)
               (yielding [role_fragment; two_fragment] Closed)))))) = 3%nat.
Proof.
  destruct (notebook_completes (fun env => env)
              (notebook_world "ghp_abc"
                 (notebook_stub (inr counted)
                    (yielding [role_fragment; two_fragment; empty_fragment] Closed)
                    (yielding [role_fragment; two_fragment] Closed)))
              "ghp_abc" counted
              {| message_role := assistant; message_content := Some "1, 2, 3" |}
              (yielding [role_fragment; two_fragment; empty_fragment] Closed)
              [role_fragment; two_fragment]) as (H1 & H2 & _).
  - vm_compute. reflexivity.
  - reflexivity.
  - reflexivity.
  - reflexivity.
  - reflexivity.
  - reflexivity.
  - reflexivity.
  - discriminate.
  - repeat constructor; discriminate.
  - split; [exact H1|]. rewrite H2. reflexivity.
Defined.

(** A run of the whole notebook in which cell 1 completes and the
    service refuses the blocking request of cell 3 with a refusal the
    client does not retry: the run stops there with the exception of the
    refusal; one request was sent, the two streamed ones never are, and
    nothing was printed. *)
Theorem notebook_stops_at_refusal load_dotenv (w : World) (token : string)
    (e : Exn) :
  fst (cell_1 load_dotenv w) = Ok tt ->
  load_dotenv (environ w) !! GITHUB_TOKEN = Some token ->
  complete (service w) (length (issued w)) (github_client token)
    (blocking_request gpt_4o_mini count_to_100) = inl (e, false) ->
  fst (notebook load_dotenv w) = Raise e /\
  issued (snd (notebook load_dotenv w)) =
    issued w ++ [(github_client token, blocking_request gpt_4o_mini count_to_100)] /\
  delivered (snd (notebook load_dotenv w)) = delivered w /\
  stdout (snd (notebook load_dotenv w)) = stdout w.
Proof.
  intros Hok Hv He.
  unfold notebook.
  rewrite (bind_ok _ _ _ _ _ (cell_1_world load_dotenv w token Hok Hv)).
  match goal with |- context [(cell_3 ≫= _) ?w1] => set (W1 := w1) end.
  rewrite (bind_raise _ _ _ _ _
             (cell_3_refused W1 (github_client token) gpt_4o_mini e
                eq_refl eq_refl He)).
  repeat split; reflexivity.
Qed.

Lemma notebook_stops_at_refusal_witness :
  fst (notebook (fun env => env)
         (notebook_world "ghp_abc"
            (refusing (TransportError "unauthorized") false))) =
    Raise (TransportError "unauthorized") /\
  length (issued (snd (notebook (fun env => env)
         (notebook_world "ghp_abc"
            (refusing (TransportError "unauthorized") false))))) =
    1%nat.
Proof.
  destruct (notebook_stops_at_refusal (fun env => env)
              (notebook_world "ghp_abc"
                 (refusing (TransportError "unauthorized") false))
              "ghp_abc" (TransportError "unauthorized")) as (H1 & H2 & _).
  - vm_compute. reflexivity.
  - reflexivity.
  - reflexivity.
  - split; [exact H1|]. rewrite H2. reflexivity.
Defined.
